(** * DAO_Treasury_Hedge_FHE: batched confidential submissions and verified
      asynchronous decryption

    A shallow embedding of the Solidity contract [DAO_Treasury_Hedge_FHE]:
    storage is a record of finite maps, every external function is a
    computation in a small revert/state/event monad, Solidity modifiers are
    functions that wrap a body, and a transaction either commits its final
    storage together with its events or reverts to the storage it started
    from. *)

From Stdlib Require Import NArith List Lia.
From Stdlib.Strings Require Import Byte.
From stdpp Require Import gmap list numbers.

Local Open Scope N_scope.

(** ** Value types *)

Abbreviation address := N (only parsing).
Abbreviation uint256 := N (only parsing).
Abbreviation bytes32 := N (only parsing).
(** [euint32] is a user-defined value type over [bytes32]: a ciphertext
    handle. *)
Abbreviation euint32 := N (only parsing).
Abbreviation bytes := (list byte) (only parsing).

Definition uint256_limit : N := 2 ^ 256.

(** ** Storage *)

Record DecryptionContext := mkContext {
  batchId : uint256;
  stateHash : bytes32;
  processed : bool }.

(** What a Solidity mapping returns for a key that was never written. *)
Definition zero_context : DecryptionContext :=
  {| batchId := 0; stateHash := 0; processed := false |}.

Record State := mkState {
  owner : address;
  isProvider : gmap address bool;
  paused : bool;
  cooldownSeconds : uint256;
  lastSubmissionTime : gmap address uint256;
  lastDecryptionRequestTime : gmap address uint256;
  currentBatchId : uint256;
  isBatchClosed : gmap uint256 bool;
  decryptionContexts : gmap uint256 DecryptionContext;
  encryptedAssetAmounts : gmap (uint256 * address) euint32;
  encryptedHedgeAmounts : gmap (uint256 * address) euint32 }.

(** Reading a mapping: the zero value of the type for an absent key. *)
Definition read_bool (m : gmap N bool) (k : N) : bool := default false (m !! k).
Definition read_uint (m : gmap N N) (k : N) : N := default 0 (m !! k).
Definition read_context (m : gmap N DecryptionContext) (k : N) : DecryptionContext :=
  default zero_context (m !! k).
Definition read_handle (m : gmap (N * N) N) (b a : N) : N := default 0 (m !! (b, a)).

(** Field updates. *)
Definition set_owner (v : address) (s : State) : State :=
  mkState v (isProvider s) (paused s) (cooldownSeconds s) (lastSubmissionTime s)
    (lastDecryptionRequestTime s) (currentBatchId s) (isBatchClosed s)
    (decryptionContexts s) (encryptedAssetAmounts s) (encryptedHedgeAmounts s).
Definition set_isProvider (v : gmap address bool) (s : State) : State :=
  mkState (owner s) v (paused s) (cooldownSeconds s) (lastSubmissionTime s)
    (lastDecryptionRequestTime s) (currentBatchId s) (isBatchClosed s)
    (decryptionContexts s) (encryptedAssetAmounts s) (encryptedHedgeAmounts s).
Definition set_paused (v : bool) (s : State) : State :=
  mkState (owner s) (isProvider s) v (cooldownSeconds s) (lastSubmissionTime s)
    (lastDecryptionRequestTime s) (currentBatchId s) (isBatchClosed s)
    (decryptionContexts s) (encryptedAssetAmounts s) (encryptedHedgeAmounts s).
Definition set_cooldownSeconds (v : uint256) (s : State) : State :=
  mkState (owner s) (isProvider s) (paused s) v (lastSubmissionTime s)
    (lastDecryptionRequestTime s) (currentBatchId s) (isBatchClosed s)
    (decryptionContexts s) (encryptedAssetAmounts s) (encryptedHedgeAmounts s).
Definition set_lastSubmissionTime (v : gmap address uint256) (s : State) : State :=
  mkState (owner s) (isProvider s) (paused s) (cooldownSeconds s) v
    (lastDecryptionRequestTime s) (currentBatchId s) (isBatchClosed s)
    (decryptionContexts s) (encryptedAssetAmounts s) (encryptedHedgeAmounts s).
Definition set_lastDecryptionRequestTime (v : gmap address uint256) (s : State) : State :=
  mkState (owner s) (isProvider s) (paused s) (cooldownSeconds s) (lastSubmissionTime s)
    v (currentBatchId s) (isBatchClosed s)
    (decryptionContexts s) (encryptedAssetAmounts s) (encryptedHedgeAmounts s).
Definition set_currentBatchId (v : uint256) (s : State) : State :=
  mkState (owner s) (isProvider s) (paused s) (cooldownSeconds s) (lastSubmissionTime s)
    (lastDecryptionRequestTime s) v (isBatchClosed s)
    (decryptionContexts s) (encryptedAssetAmounts s) (encryptedHedgeAmounts s).
Definition set_isBatchClosed (v : gmap uint256 bool) (s : State) : State :=
  mkState (owner s) (isProvider s) (paused s) (cooldownSeconds s) (lastSubmissionTime s)
    (lastDecryptionRequestTime s) (currentBatchId s) v
    (decryptionContexts s) (encryptedAssetAmounts s) (encryptedHedgeAmounts s).
Definition set_decryptionContexts (v : gmap uint256 DecryptionContext) (s : State) : State :=
  mkState (owner s) (isProvider s) (paused s) (cooldownSeconds s) (lastSubmissionTime s)
    (lastDecryptionRequestTime s) (currentBatchId s) (isBatchClosed s)
    v (encryptedAssetAmounts s) (encryptedHedgeAmounts s).
Definition set_encryptedAssetAmounts (v : gmap (uint256 * address) euint32) (s : State) : State :=
  mkState (owner s) (isProvider s) (paused s) (cooldownSeconds s) (lastSubmissionTime s)
    (lastDecryptionRequestTime s) (currentBatchId s) (isBatchClosed s)
    (decryptionContexts s) v (encryptedHedgeAmounts s).
Definition set_encryptedHedgeAmounts (v : gmap (uint256 * address) euint32) (s : State) : State :=
  mkState (owner s) (isProvider s) (paused s) (cooldownSeconds s) (lastSubmissionTime s)
    (lastDecryptionRequestTime s) (currentBatchId s) (isBatchClosed s)
    (decryptionContexts s) (encryptedAssetAmounts s) v.

(** ** Errors and events *)

Inductive Error :=
| NotOwner
| NotProvider
| Paused
| CooldownActive
| BatchClosed
| InvalidBatch
| ReplayAttempt
| StateMismatch
| InvalidDecryptionProof
| NotInitialized
| Panic (code : N)        (* 0x11: checked arithmetic overflow *)
| SliceOutOfBounds.       (* a byte slice that ends past the array *)

Module Event.
Inductive t :=
| OwnershipTransferred (previousOwner newOwner : address)
| ProviderAdded (provider : address)
| ProviderRemoved (provider : address)
| PauseToggled (paused : bool)
| CooldownSecondsChanged (oldCooldownSeconds newCooldownSeconds : uint256)
| BatchOpened (batchId : uint256)
| BatchClosed (batchId : uint256)
| AssetSubmitted (batchId : uint256) (provider asset : address) (amount : euint32)
| HedgeSubmitted (batchId : uint256) (provider asset : address) (amount : euint32)
| DecryptionRequested (requestId batchId : uint256) (stateHash : bytes32)
| DecryptionCompleted (requestId batchId : uint256) (assetAmounts hedgeAmounts : list uint256).
End Event.

(** ** The transaction monad

    A computation reads and writes storage, appends events, and may revert.
    A revert carries no storage: whatever was written before it is lost. *)

Definition M (A : Type) : Type := State -> Error + (A * State * list Event.t).

Definition ret {A} (a : A) : M A := fun s => inr (a, s, []).
Definition bind {A B} (m : M A) (f : A -> M B) : M B :=
  fun s =>
    match m s with
    | inl e => inl e
    | inr (a, s1, ev1) =>
        match f a s1 with
        | inl e => inl e
        | inr (b, s2, ev2) => inr (b, s2, ev1 ++ ev2)
        end
    end.
Definition revert {A} (e : Error) : M A := fun _ => inl e.
Definition gets {A} (f : State -> A) : M A := fun s => inr (f s, s, []).
Definition modify (f : State -> State) : M unit := fun s => inr (tt, f s, []).
Definition emit (ev : Event.t) : M unit := fun s => inr (tt, s, [ev]).

Notation "x <- m ;; k" := (bind m (fun x => k))
  (at level 100, m at next level, right associativity).
Notation "m ;;; k" := (bind m (fun _ => k))
  (at level 100, right associativity).

(** Solidity 0.8 checked addition. *)
Definition checked_add (a b : uint256) : M uint256 :=
  if a + b <? uint256_limit then ret (a + b) else revert (Panic 0x11).

(** ** Big-endian words *)

Definition byte_of_N (x : N) : byte :=
  match Byte.of_N (x mod 256) with Some b => b | None => x00 end.

(** The [n] low-order bytes of [x], most significant first. *)
Fixpoint be_encode (n : nat) (x : N) : list byte :=
  match n with
  | O => []
  | S n' => be_encode n' (x / 256) ++ [byte_of_N x]
  end.

Definition be_decode (bs : list byte) : N :=
  fold_left (fun acc b => acc * 256 + Byte.to_N b) bs 0.

Definition encode_uint256 (x : uint256) : list byte := be_encode 32 x.

(** [abi.decode(bs[start : start + 32], (uint256))]: the slice reverts when
    it ends past the array. *)
Definition decode_word_at (bs : list byte) (start : N) : M uint256 :=
  stop <- checked_add start 32;;
  if N.of_nat (length bs) <? stop
  then revert SliceOutOfBounds
  else ret (be_decode (firstn 32 (skipn (N.to_nat start) bs))).

(** [abi.encode(cts, addr)] for a [bytes32[]] and an [address]: the head holds
    the offset of the array and the address, the tail the length and the
    elements. *)
Definition abi_encode (cts : list bytes32) (addr : address) : list byte :=
  encode_uint256 64 ++ encode_uint256 addr ++
  encode_uint256 (N.of_nat (length cts)) ++ concat (map encode_uint256 cts).

(** ** The external ciphertext capability

    The FHE library and the hash are consumed, not implemented, by the
    contract. *)
Record Capability := mkCapability {
  isInitialized : euint32 -> bool;
  toBytes32 : euint32 -> bytes32;
  checkSignatures : uint256 -> list byte -> list byte -> bool;
  keccak256 : list byte -> bytes32 }.

(** Per-transaction environment: the caller, the block time, and the request
    id that [FHE.requestDecryption] hands out if this transaction asks for
    one. *)
Record Env := mkEnv {
  msg_sender : address;
  block_timestamp : uint256;
  oracle_requestId : uint256 }.

(** The fixed asset list of [requestBatchDecryption] and [myCallback]. *)
Definition assets : list address :=
  [ 0x1111111111111111111111111111111111111111;
    0x2222222222222222222222222222222222222222 ].

(** ** The contract *)

Section Contract.

Variable FHE : Capability.
(** [address(this)]. *)
Variable this : address.

Section Transaction.

Variable env : Env.

(** *** Modifiers *)

Definition onlyOwner (body : M unit) : M unit :=
  o <- gets owner;;
  if negb (msg_sender env =? o) then revert NotOwner else body.

Definition onlyProvider (body : M unit) : M unit :=
  p <- gets (fun s => read_bool (isProvider s) (msg_sender env));;
  if negb p then revert NotProvider else
  body;;;
  modify (fun s =>
    set_lastSubmissionTime
      (<[msg_sender env := block_timestamp env]> (lastSubmissionTime s)) s).

Definition whenNotPaused (body : M unit) : M unit :=
  p <- gets paused;;
  if p then revert Paused else body.

Definition submissionCooldown (submitter : address) (body : M unit) : M unit :=
  last <- gets (fun s => read_uint (lastSubmissionTime s) submitter);;
  cd <- gets cooldownSeconds;;
  ready <- checked_add last cd;;
  if block_timestamp env <? ready then revert CooldownActive else body.

Definition decryptionCooldown (requester : address) (body : M unit) : M unit :=
  last <- gets (fun s => read_uint (lastDecryptionRequestTime s) requester);;
  cd <- gets cooldownSeconds;;
  ready <- checked_add last cd;;
  if block_timestamp env <? ready then revert CooldownActive else
  body;;;
  modify (fun s =>
    set_lastDecryptionRequestTime
      (<[requester := block_timestamp env]> (lastDecryptionRequestTime s)) s).

(** *** Administration *)

Definition transferOwnership (newOwner : address) : M unit :=
  onlyOwner (
    previousOwner <- gets owner;;
    modify (set_owner newOwner);;;
    emit (Event.OwnershipTransferred previousOwner newOwner)).

Definition addProvider (provider : address) : M unit :=
  onlyOwner (
    modify (fun s => set_isProvider (<[provider := true]> (isProvider s)) s);;;
    emit (Event.ProviderAdded provider)).

Definition removeProvider (provider : address) : M unit :=
  onlyOwner (
    modify (fun s => set_isProvider (<[provider := false]> (isProvider s)) s);;;
    emit (Event.ProviderRemoved provider)).

Definition setPaused (_paused : bool) : M unit :=
  onlyOwner (
    modify (set_paused _paused);;;
    emit (Event.PauseToggled _paused)).

Definition setCooldownSeconds (_cooldownSeconds : uint256) : M unit :=
  onlyOwner (
    oldCooldown <- gets cooldownSeconds;;
    modify (set_cooldownSeconds _cooldownSeconds);;;
    emit (Event.CooldownSecondsChanged oldCooldown _cooldownSeconds)).

(** *** Batches *)

Definition openNewBatch : M unit :=
  onlyOwner (whenNotPaused (
    cur <- gets currentBatchId;;
    next <- checked_add cur 1;;
    modify (set_currentBatchId next);;;
    cur' <- gets currentBatchId;;
    emit (Event.BatchOpened cur'))).

Definition closeCurrentBatch : M unit :=
  onlyOwner (whenNotPaused (
    modify (fun s =>
      set_isBatchClosed (<[currentBatchId s := true]> (isBatchClosed s)) s);;;
    cur <- gets currentBatchId;;
    emit (Event.BatchClosed cur))).

(** *** Submissions *)

Definition _initIfNeeded (value : euint32) : M unit :=
  if negb (isInitialized FHE value) then revert NotInitialized else ret tt.

Definition _requireInitialized (value : euint32) : M unit :=
  if negb (isInitialized FHE value) then revert NotInitialized else ret tt.

Definition submitEncryptedAssetAmount (batch : uint256) (asset : address)
    (amount : euint32) : M unit :=
  onlyProvider (whenNotPaused (submissionCooldown (msg_sender env) (
    cur <- gets currentBatchId;;
    if negb (batch =? cur) then revert InvalidBatch else
    closed <- gets (fun s => read_bool (isBatchClosed s) batch);;
    if closed then revert BatchClosed else
    _initIfNeeded amount;;;
    modify (fun s =>
      set_encryptedAssetAmounts
        (<[(batch, asset) := amount]> (encryptedAssetAmounts s)) s);;;
    emit (Event.AssetSubmitted batch (msg_sender env) asset amount)))).

Definition submitEncryptedHedgeAmount (batch : uint256) (asset : address)
    (amount : euint32) : M unit :=
  onlyProvider (whenNotPaused (submissionCooldown (msg_sender env) (
    cur <- gets currentBatchId;;
    if negb (batch =? cur) then revert InvalidBatch else
    closed <- gets (fun s => read_bool (isBatchClosed s) batch);;
    if closed then revert BatchClosed else
    _initIfNeeded amount;;;
    modify (fun s =>
      set_encryptedHedgeAmounts
        (<[(batch, asset) := amount]> (encryptedHedgeAmounts s)) s);;;
    emit (Event.HedgeSubmitted batch (msg_sender env) asset amount)))).

(** *** Decryption *)

(** The loop that fills [cts]: for every asset, in order, its amount handle
    and then its hedge handle. *)
Fixpoint collect_cts (s : State) (batch : uint256) (l : list address)
    : list bytes32 :=
  match l with
  | [] => []
  | a :: rest =>
      toBytes32 FHE (read_handle (encryptedAssetAmounts s) batch a) ::
      toBytes32 FHE (read_handle (encryptedHedgeAmounts s) batch a) ::
      collect_cts s batch rest
  end.

Definition _hashCiphertexts (cts : list bytes32) : bytes32 :=
  keccak256 FHE (abi_encode cts this).

Definition requestBatchDecryption (batch : uint256) : M unit :=
  onlyOwner (whenNotPaused (decryptionCooldown (msg_sender env) (
    closed <- gets (fun s => read_bool (isBatchClosed s) batch);;
    if negb closed then revert InvalidBatch else
    cts <- gets (fun s => collect_cts s batch assets);;
    let hash := _hashCiphertexts cts in
    let requestId := oracle_requestId env in
    modify (fun s =>
      set_decryptionContexts
        (<[requestId := mkContext batch hash false]> (decryptionContexts s)) s);;;
    emit (Event.DecryptionRequested requestId batch hash)))).

(** The decoding loop: [numAssets] rounds, each reading an amount word and
    then a hedge word and advancing [cleartextIdx] by 32 after each. *)
Fixpoint decode_cleartexts (numAssets : nat) (cleartexts : list byte)
    (cleartextIdx : uint256) : M (list uint256 * list uint256) :=
  match numAssets with
  | O => ret ([], [])
  | S n =>
      a <- decode_word_at cleartexts cleartextIdx;;
      idx1 <- checked_add cleartextIdx 32;;
      h <- decode_word_at cleartexts idx1;;
      idx2 <- checked_add idx1 32;;
      rest <- decode_cleartexts n cleartexts idx2;;
      ret (a :: fst rest, h :: snd rest)
  end.

Definition myCallback (requestId : uint256) (cleartexts proof : list byte)
    : M unit :=
  context <- gets (fun s => read_context (decryptionContexts s) requestId);;
  if processed context then revert ReplayAttempt else
  cts <- gets (fun s => collect_cts s (batchId context) assets);;
  let currentHash := _hashCiphertexts cts in
  if negb (currentHash =? stateHash context) then revert StateMismatch else
  if negb (checkSignatures FHE requestId cleartexts proof)
  then revert InvalidDecryptionProof else
  decoded <- decode_cleartexts (length assets) cleartexts 0;;
  modify (fun s =>
    let c := read_context (decryptionContexts s) requestId in
    set_decryptionContexts
      (<[requestId := mkContext (batchId c) (stateHash c) true]>
         (decryptionContexts s)) s);;;
  emit (Event.DecryptionCompleted requestId (batchId context)
          (fst decoded) (snd decoded)).

(** *** Transactions *)

Inductive Call :=
| TransferOwnership (newOwner : address)
| AddProvider (provider : address)
| RemoveProvider (provider : address)
| SetPaused (_paused : bool)
| SetCooldownSeconds (_cooldownSeconds : uint256)
| OpenNewBatch
| CloseCurrentBatch
| SubmitEncryptedAssetAmount (batch : uint256) (asset : address) (amount : euint32)
| SubmitEncryptedHedgeAmount (batch : uint256) (asset : address) (amount : euint32)
| RequestBatchDecryption (batch : uint256)
| MyCallback (requestId : uint256) (cleartexts proof : list byte).

Definition dispatch (c : Call) : M unit :=
  match c with
  | TransferOwnership a => transferOwnership a
  | AddProvider a => addProvider a
  | RemoveProvider a => removeProvider a
  | SetPaused b => setPaused b
  | SetCooldownSeconds n => setCooldownSeconds n
  | OpenNewBatch => openNewBatch
  | CloseCurrentBatch => closeCurrentBatch
  | SubmitEncryptedAssetAmount b a h => submitEncryptedAssetAmount b a h
  | SubmitEncryptedHedgeAmount b a h => submitEncryptedHedgeAmount b a h
  | RequestBatchDecryption b => requestBatchDecryption b
  | MyCallback r c p => myCallback r c p
  end.

(** What a transaction leaves behind. *)
Inductive Receipt :=
| Success (s' : State) (logs : list Event.t)
| Reverted (e : Error).

Definition transact (c : Call) (s : State) : Receipt :=
  match dispatch c s with
  | inl e => Reverted e
  | inr (_, s', logs) => Success s' logs
  end.

(** Storage after the transaction: a revert restores the storage the
    transaction started from. *)
Definition storage_after (c : Call) (s : State) : State :=
  match transact c s with
  | Success s' _ => s'
  | Reverted _ => s
  end.

Definition logs_of (c : Call) (s : State) : list Event.t :=
  match transact c s with
  | Success _ logs => logs
  | Reverted _ => []
  end.

(** *** Deployment *)

Definition zero_state : State :=
  mkState 0 ∅ false 0 ∅ ∅ 0 ∅ ∅ ∅ ∅.

Definition constructor : M unit :=
  modify (set_owner (msg_sender env));;;
  emit (Event.OwnershipTransferred 0 (msg_sender env));;;
  modify (set_currentBatchId 1);;;
  cur <- gets currentBatchId;;
  emit (Event.BatchOpened cur);;;
  modify (set_cooldownSeconds 60).

Definition deployed : State :=
  match constructor zero_state with
  | inr (_, s, _) => s
  | inl _ => zero_state
  end.

End Transaction.
End Contract.

(** ** A mock capability

    A handle is initialized when it is not zero, proofs are accepted when
    they are the single byte [01], and the hash is a simple polynomial fold
    (never zero). It serves to run the contract on concrete inputs. *)

Definition mock_hash (bs : list byte) : bytes32 :=
  fold_left (fun acc b => (acc * 257 + Byte.to_N b + 1) mod (uint256_limit - 1)) bs 7 + 1.

Definition mock : Capability :=
  {| isInitialized := fun h => negb (h =? 0);
     toBytes32 := fun h => h;
     checkSignatures := fun _ _ proof =>
       match proof with [b] => Byte.to_N b =? 1 | _ => false end;
     keccak256 := mock_hash |}.

(** ** Observations used in the statements *)

(** The [processed] flag the contract reads for a request id. *)
Definition processed_of (s : State) (requestId : uint256) : bool :=
  processed (read_context (decryptionContexts s) requestId).

(** [FHE.requestDecryption] hands out ids that were never handed out before.
    Every id it hands out in a committed transaction ends up as a key of
    [decryptionContexts]; a new id is one under which nothing is stored. *)
Definition oracle_fresh (env : Env) (c : Call) (s : State) : Prop :=
  match c with
  | RequestBatchDecryption _ => decryptionContexts s !! oracle_requestId env = None
  | _ => True
  end.

Section Runs.

Variable FHE : Capability.
Variable this : address.

(** A sequence of transactions, each with its own environment. *)
Fixpoint execute (tr : list (Env * Call)) (s : State) : State :=
  match tr with
  | [] => s
  | (env, c) :: tr' => execute tr' (storage_after FHE this env c s)
  end.

Fixpoint oracle_ids_unique (tr : list (Env * Call)) (s : State) : Prop :=
  match tr with
  | [] => True
  | (env, c) :: tr' =>
      oracle_fresh env c s /\ oracle_ids_unique tr' (storage_after FHE this env c s)
  end.

(** States the deployed contract can be in. *)
Inductive reachable : State -> Prop :=
| reachable_deployed env : reachable (deployed env)
| reachable_step env c s :
    reachable s -> oracle_fresh env c s ->
    reachable (storage_after FHE this env c s).

End Runs.

(** ** Guards and results, spelled out

    The checks of each guarded function in the order its modifiers and body
    apply them; [None] when all of them pass. *)

Section Guards.

Variable FHE : Capability.
Variable this : address.
Variable env : Env.

Definition submit_guard (batch : uint256) (amount : euint32) (s : State)
    : option Error :=
  if negb (read_bool (isProvider s) (msg_sender env)) then Some NotProvider else
  if paused s then Some Paused else
  if read_uint (lastSubmissionTime s) (msg_sender env) + cooldownSeconds s
       <? uint256_limit then
    if block_timestamp env
         <? read_uint (lastSubmissionTime s) (msg_sender env) + cooldownSeconds s
    then Some CooldownActive else
    if negb (batch =? currentBatchId s) then Some InvalidBatch else
    if read_bool (isBatchClosed s) batch then Some BatchClosed else
    if negb (isInitialized FHE amount) then Some NotInitialized else None
  else Some (Panic 0x11).

Definition request_guard (batch : uint256) (s : State) : option Error :=
  if negb (msg_sender env =? owner s) then Some NotOwner else
  if paused s then Some Paused else
  if read_uint (lastDecryptionRequestTime s) (msg_sender env) + cooldownSeconds s
       <? uint256_limit then
    if block_timestamp env
         <? read_uint (lastDecryptionRequestTime s) (msg_sender env) + cooldownSeconds s
    then Some CooldownActive else
    if negb (read_bool (isBatchClosed s) batch) then Some InvalidBatch else None
  else Some (Panic 0x11).

(** The value the decoding loop computes; it reads no storage. *)
Definition decode_result (numAssets : nat) (cleartexts : list byte)
    (cleartextIdx : uint256) : Error + (list uint256 * list uint256) :=
  match decode_cleartexts numAssets cleartexts cleartextIdx zero_state with
  | inl e => inl e
  | inr (d, _, _) => inr d
  end.

(** The hash the callback recomputes for a request id, from the handles
    stored now for the batch of its context. *)
Definition recomputed_hash (s : State) (requestId : uint256) : bytes32 :=
  _hashCiphertexts FHE this
    (collect_cts FHE s (batchId (read_context (decryptionContexts s) requestId)) assets).

(** Storage after a callback finalizes: the context keeps its batch and hash
    and becomes processed. *)
Definition finalized (requestId : uint256) (s : State) : State :=
  let c := read_context (decryptionContexts s) requestId in
  set_decryptionContexts
    (<[requestId := mkContext (batchId c) (stateHash c) true]> (decryptionContexts s)) s.

End Guards.


(** ** A concrete run

    The end-to-end scenario on the mock capability: the deployer adds a
    provider, the provider submits an amount for both assets and a hedge for
    the second, the owner closes batch 1 and requests its decryption, and
    the oracle calls back. *)

Module Scenario.

Definition contract_address : address := 0xC0FFEE.
Definition deployer : address := 0xA11CE.
Definition provider : address := 0xB0B.
Definition stranger : address := 0xBAD.
Definition asset1 : address := 0x1111111111111111111111111111111111111111.
Definition asset2 : address := 0x2222222222222222222222222222222222222222.
Definition asset3 : address := 0x3333333333333333333333333333333333333333.

(** Caller, block time, and the id the oracle would hand out. *)
Definition at_time (caller : address) (t : uint256) : Env := mkEnv caller t 77.

Definition run (tr : list (Env * Call)) (s : State) : State :=
  execute mock contract_address tr s.

Definition call (env : Env) (c : Call) (s : State) : Receipt :=
  transact mock contract_address env c s.

Definition fresh : State := deployed (at_time deployer 1000).

Definition submissions : list (Env * Call) :=
  [ (at_time deployer 1010, AddProvider provider);
    (at_time provider 1100, SubmitEncryptedAssetAmount 1 asset1 501);
    (at_time provider 1200, SubmitEncryptedAssetAmount 1 asset2 502);
    (at_time provider 1300, SubmitEncryptedHedgeAmount 1 asset2 503) ].

(** The deployer has added the provider; nothing is submitted yet. *)
Definition provider_added : State := run (firstn 1 submissions) fresh.
Definition submitted : State := run submissions fresh.
(** The same run without its last submission. *)
Definition two_submitted : State := run (firstn 3 submissions) fresh.
Definition closed : State := run [(at_time deployer 1400, CloseCurrentBatch)] submitted.
Definition requested : State := run [(at_time deployer 1500, RequestBatchDecryption 1)] closed.

Definition cleartexts : list byte :=
  encode_uint256 100 ++ encode_uint256 0 ++ encode_uint256 50 ++ encode_uint256 20.
Definition valid_proof : list byte := [x01].

Definition completed : State :=
  run [(at_time stranger 9000, MyCallback 77 cleartexts valid_proof)] requested.

(** What follows a completed decryption: a second request, which the oracle
    numbers 78, its callback, and a new batch. *)
Definition afterwards : list (Env * Call) :=
  [ (mkEnv deployer 9100 78, RequestBatchDecryption 1);
    (at_time stranger 9200, MyCallback 78 cleartexts valid_proof);
    (at_time deployer 9300, SetPaused true);
    (at_time deployer 9400, SetPaused false);
    (at_time deployer 9500, OpenNewBatch) ].

(** A second batch opened while batch 1 was never closed. *)
Definition two_open : State := run [(at_time deployer 1400, OpenNewBatch)] submitted.

(** The contract paused while the request of batch 1 is pending. *)
Definition paused_pending : State :=
  run [(at_time deployer 1600, SetPaused true)] requested.

(** Batch 1 closed, with one more amount stored for an asset outside the
    fixed list. *)
Definition closed_with_third : State :=
  set_encryptedAssetAmounts (<[(1, asset3) := 777]> (encryptedAssetAmounts closed))
    closed.

(** What the former owner and a stranger try after ownership went to the
    zero address. *)
Definition takeover_attempts : list (Env * Call) :=
  [ (at_time stranger 2000, TransferOwnership stranger);
    (at_time deployer 2100, AddProvider provider);
    (at_time stranger 2200, MyCallback 1 [] []);
    (at_time deployer 2300, OpenNewBatch) ].

(** The owner set a cooldown so long that adding it to a timestamp leaves
    [uint256]. *)
Definition huge_cooldown : State :=
  run [(at_time deployer 1400, SetCooldownSeconds (uint256_limit - 1))] submitted.

(** Two requests for batch 1 pending at once, numbered 77 and 78. *)
Definition two_pending : State :=
  run [(mkEnv deployer 1600 78, RequestBatchDecryption 1)] requested.

(** What a provider and the owner try after batch 1 was closed. *)
Definition after_closing : list (Env * Call) :=
  [ (at_time provider 5000, SubmitEncryptedAssetAmount 1 asset1 901);
    (at_time deployer 5100, OpenNewBatch);
    (at_time provider 5200, SubmitEncryptedAssetAmount 2 asset1 902);
    (at_time provider 5300, SubmitEncryptedAssetAmount 1 asset1 903) ].

(** Storage in which a handle of batch 1 differs from the one the request
    hashed. *)
Definition tampered : State :=
  set_encryptedAssetAmounts (<[(1, asset1) := 999]> (encryptedAssetAmounts requested))
    requested.
End Scenario.

(** ** Vocabulary of the statements *)

(** The two kinds of submission and the external function of each. *)
Inductive Kind := Amount | Hedge.

Definition submit (k : Kind) (batch : uint256) (asset : address)
    (handle : euint32) : Call :=
  match k with
  | Amount => SubmitEncryptedAssetAmount batch asset handle
  | Hedge => SubmitEncryptedHedgeAmount batch asset handle
  end.

Definition stored_handle (k : Kind) (s : State) (batch : uint256)
    (asset : address) : euint32 :=
  match k with
  | Amount => read_handle (encryptedAssetAmounts s) batch asset
  | Hedge => read_handle (encryptedHedgeAmounts s) batch asset
  end.

(** Batch ids issued so far: 1 up to [currentBatchId]. *)
Definition issued_batches (s : State) : list uint256 :=
  map N.of_nat (seq 1 (N.to_nat (currentBatchId s))).

(** Issued batches whose [isBatchClosed] flag is not set. *)
Definition open_batches (s : State) : list uint256 :=
  List.filter (fun b => negb (read_bool (isBatchClosed s) b)) (issued_batches s).

(** The batch a submission can go to: the current one, while not closed. *)
Definition accepts_submissions (s : State) (batch : uint256) : bool :=
  (batch =? currentBatchId s) && negb (read_bool (isBatchClosed s) batch).

(** Batch ids start at 1 and only issued batches are ever closed. *)
Definition batches_wellformed (s : State) : Prop :=
  1 <= currentBatchId s /\
  forall b, read_bool (isBatchClosed s) b = true -> 1 <= b <= currentBatchId s.

(** Functions that carry the [onlyOwner] modifier. *)
Definition owner_only (c : Call) : bool :=
  match c with
  | TransferOwnership _ | AddProvider _ | RemoveProvider _ | SetPaused _
  | SetCooldownSeconds _ | OpenNewBatch | CloseCurrentBatch
  | RequestBatchDecryption _ => true
  | SubmitEncryptedAssetAmount _ _ _ | SubmitEncryptedHedgeAmount _ _ _
  | MyCallback _ _ _ => false
  end.

(** No transaction of the run is sent from the zero address. *)
Definition callers_nonzero (tr : list (Env * Call)) : Prop :=
  Forall (fun ec => msg_sender (fst ec) <> 0) tr.

(** Two storages that agree on everything but the submission mappings. *)
Definition same_outside_submissions (s1 s2 : State) : Prop :=
  owner s1 = owner s2 /\
  isProvider s1 = isProvider s2 /\
  paused s1 = paused s2 /\
  cooldownSeconds s1 = cooldownSeconds s2 /\
  lastSubmissionTime s1 = lastSubmissionTime s2 /\
  lastDecryptionRequestTime s1 = lastDecryptionRequestTime s2 /\
  currentBatchId s1 = currentBatchId s2 /\
  isBatchClosed s1 = isBatchClosed s2 /\
  decryptionContexts s1 = decryptionContexts s2.

(** Two storages that agree on the amount and hedge handles of the two listed
    assets for one batch. *)
Definition same_slots (batch : uint256) (s1 s2 : State) : Prop :=
  forall a, In a assets ->
    read_handle (encryptedAssetAmounts s1) batch a =
      read_handle (encryptedAssetAmounts s2) batch a /\
    read_handle (encryptedHedgeAmounts s1) batch a =
      read_handle (encryptedHedgeAmounts s2) batch a.

(** Two receipts an observer of errors, logs and non-submission storage
    cannot tell apart. *)
Definition same_receipt (r1 r2 : Receipt) : Prop :=
  match r1, r2 with
  | Success s1 l1, Success s2 l2 => l1 = l2 /\ same_outside_submissions s1 s2
  | Reverted e1, Reverted e2 => e1 = e2
  | _, _ => False
  end.

(** The 32-byte word of [bs] that starts at byte [i], as a number. *)
Definition word_at (bs : list byte) (i : nat) : uint256 :=
  be_decode (firstn 32 (skipn i bs)).

(** Every context that is stored carries the hash of what is stored now for
    its batch, and its batch is closed (or is batch 0, which no request can
    name once it succeeded and no submission can reach). *)
Definition contexts_bound (FHE : Capability) (this : address) (s : State) : Prop :=
  forall requestId c,
    decryptionContexts s !! requestId = Some c ->
    stateHash c = _hashCiphertexts FHE this (collect_cts FHE s (batchId c) assets) /\
    (read_bool (isBatchClosed s) (batchId c) = true \/ batchId c = 0).

(** Every handle that is stored passed [FHE.isInitialized]. *)
Definition handles_initialized (FHE : Capability) (s : State) : Prop :=
  forall key h,
    (encryptedAssetAmounts s !! key = Some h \/
     encryptedHedgeAmounts s !! key = Some h) ->
    isInitialized FHE h = true.


(** * Properties *)

(** ** Big-endian words: decoding undoes encoding *)

Lemma byte_of_N_to_N (x : N) : Byte.to_N (byte_of_N x) = x mod 256.
Proof.
  unfold byte_of_N.
  pose proof (Byte.to_of_N_option_map (x mod 256)) as H.
  assert (Hlt : x mod 256 < 256) by (apply N.mod_lt; discriminate).
  destruct (N.leb_spec (x mod 256) 255) as [_ | Hgt]; [| lia].
  destruct (Byte.of_N (x mod 256)) as [b |]; simpl in H; congruence.
Qed.

Lemma be_decode_snoc (l : list byte) (b : byte) :
  be_decode (l ++ [b]) = be_decode l * 256 + Byte.to_N b.
Proof. unfold be_decode. now rewrite fold_left_app. Qed.

Lemma be_encode_length (n : nat) (x : N) : length (be_encode n x) = n.
Proof.
  revert x. induction n as [| n IH]; intros x; simpl; [reflexivity |].
  rewrite length_app, IH. simpl. lia.
Qed.

Lemma be_decode_encode_mod (n : nat) (x : N) :
  be_decode (be_encode n x) = x mod 256 ^ N.of_nat n.
Proof.
  revert x. induction n as [| n IH]; intros x.
  - simpl. now rewrite N.mod_1_r.
  - cbn [be_encode]. rewrite be_decode_snoc, IH, byte_of_N_to_N.
    rewrite Nat2N.inj_succ, N.pow_succ_r'.
    rewrite N.Div0.mod_mul_r. lia.
Qed.

Lemma be_decode_encode_uint256 (x : uint256) :
  x < uint256_limit -> be_decode (encode_uint256 x) = x.
Proof.
  intros Hx. unfold encode_uint256. rewrite be_decode_encode_mod.
  apply N.mod_small. exact Hx.
Qed.

Lemma encode_uint256_length (x : uint256) : length (encode_uint256 x) = 32%nat.
Proof. apply be_encode_length. Qed.

(** ** What each transaction does *)

Arguments decode_cleartexts : simpl never.
Arguments collect_cts : simpl never.

Ltac unfold_contract :=
  unfold storage_after, logs_of, transact, dispatch,
    transferOwnership, addProvider, removeProvider, setPaused,
    setCooldownSeconds, openNewBatch, closeCurrentBatch,
    submitEncryptedAssetAmount, submitEncryptedHedgeAmount,
    requestBatchDecryption, myCallback, _initIfNeeded,
    onlyOwner, onlyProvider, whenNotPaused, submissionCooldown,
    decryptionCooldown, checked_add, bind, gets, modify, emit, revert, ret
    in *.

Ltac split_ifs :=
  repeat (simpl in *;
          match goal with
          | |- context [if ?c then _ else _] => destruct c eqn:?
          end);
  simpl in *.

Ltac run_contract := unfold_contract; split_ifs; try reflexivity; try congruence.

Section Transactions.

Variable FHE : Capability.
Variable this : address.
Variable env : Env.

(** A revert restores storage and leaves no log. *)
Lemma reverted_is_atomic (c : Call) (s : State) (e : Error) :
  transact FHE this env c s = Reverted e ->
  storage_after FHE this env c s = s /\ logs_of FHE this env c s = [].
Proof. unfold storage_after, logs_of. intros ->. split; reflexivity. Qed.

Lemma transact_transferOwnership (newOwner : address) (s : State) :
  transact FHE this env (TransferOwnership newOwner) s =
  if msg_sender env =? owner s
  then Success (set_owner newOwner s) [Event.OwnershipTransferred (owner s) newOwner]
  else Reverted NotOwner.
Proof. run_contract. Qed.

Lemma transact_addProvider (p : address) (s : State) :
  transact FHE this env (AddProvider p) s =
  if msg_sender env =? owner s
  then Success (set_isProvider (<[p := true]> (isProvider s)) s) [Event.ProviderAdded p]
  else Reverted NotOwner.
Proof. run_contract. Qed.

Lemma transact_removeProvider (p : address) (s : State) :
  transact FHE this env (RemoveProvider p) s =
  if msg_sender env =? owner s
  then Success (set_isProvider (<[p := false]> (isProvider s)) s) [Event.ProviderRemoved p]
  else Reverted NotOwner.
Proof. run_contract. Qed.

Lemma transact_setPaused (b : bool) (s : State) :
  transact FHE this env (SetPaused b) s =
  if msg_sender env =? owner s
  then Success (set_paused b s) [Event.PauseToggled b]
  else Reverted NotOwner.
Proof. run_contract. Qed.

Lemma transact_setCooldownSeconds (n : uint256) (s : State) :
  transact FHE this env (SetCooldownSeconds n) s =
  if msg_sender env =? owner s
  then Success (set_cooldownSeconds n s) [Event.CooldownSecondsChanged (cooldownSeconds s) n]
  else Reverted NotOwner.
Proof. run_contract. Qed.

Lemma transact_openNewBatch (s : State) :
  transact FHE this env OpenNewBatch s =
  if msg_sender env =? owner s then
    if paused s then Reverted Paused else
    if currentBatchId s + 1 <? uint256_limit
    then Success (set_currentBatchId (currentBatchId s + 1) s)
                 [Event.BatchOpened (currentBatchId s + 1)]
    else Reverted (Panic 0x11)
  else Reverted NotOwner.
Proof. run_contract. Qed.

Lemma transact_closeCurrentBatch (s : State) :
  transact FHE this env CloseCurrentBatch s =
  if msg_sender env =? owner s then
    if paused s then Reverted Paused else
    Success (set_isBatchClosed (<[currentBatchId s := true]> (isBatchClosed s)) s)
            [Event.BatchClosed (currentBatchId s)]
  else Reverted NotOwner.
Proof. run_contract. Qed.

Lemma transact_submitEncryptedAssetAmount (batch : uint256) (asset : address)
    (amount : euint32) (s : State) :
  transact FHE this env (SubmitEncryptedAssetAmount batch asset amount) s =
  match submit_guard FHE env batch amount s with
  | Some e => Reverted e
  | None =>
      Success
        (set_lastSubmissionTime (<[msg_sender env := block_timestamp env]> (lastSubmissionTime s))
           (set_encryptedAssetAmounts
              (<[(batch, asset) := amount]> (encryptedAssetAmounts s)) s))
        [Event.AssetSubmitted batch (msg_sender env) asset amount]
  end.
Proof. unfold submit_guard. run_contract. Qed.

Lemma transact_submitEncryptedHedgeAmount (batch : uint256) (asset : address)
    (amount : euint32) (s : State) :
  transact FHE this env (SubmitEncryptedHedgeAmount batch asset amount) s =
  match submit_guard FHE env batch amount s with
  | Some e => Reverted e
  | None =>
      Success
        (set_lastSubmissionTime (<[msg_sender env := block_timestamp env]> (lastSubmissionTime s))
           (set_encryptedHedgeAmounts
              (<[(batch, asset) := amount]> (encryptedHedgeAmounts s)) s))
        [Event.HedgeSubmitted batch (msg_sender env) asset amount]
  end.
Proof. unfold submit_guard. run_contract. Qed.


Lemma transact_requestBatchDecryption (batch : uint256) (s : State) :
  transact FHE this env (RequestBatchDecryption batch) s =
  match request_guard env batch s with
  | Some e => Reverted e
  | None =>
      let hash := _hashCiphertexts FHE this (collect_cts FHE s batch assets) in
      Success
        (set_lastDecryptionRequestTime
           (<[msg_sender env := block_timestamp env]> (lastDecryptionRequestTime s))
           (set_decryptionContexts
              (<[oracle_requestId env := mkContext batch hash false]>
                 (decryptionContexts s)) s))
        [Event.DecryptionRequested (oracle_requestId env) batch hash]
  end.
Proof. unfold request_guard. run_contract. Qed.

End Transactions.

(** ** Decoding the cleartexts *)

Lemma decode_cleartexts_pure (n : nat) (cleartexts : list byte) (i : uint256)
    (s : State) :
  decode_cleartexts n cleartexts i s =
  match decode_result n cleartexts i with
  | inl e => inl e
  | inr d => inr (d, s, [])
  end.
Proof.
  unfold decode_result. revert i.
  induction n as [| n IH]; intros i; [reflexivity |].
  unfold decode_cleartexts; fold decode_cleartexts.
  unfold decode_word_at, checked_add, bind, revert, ret.
  repeat match goal with
         | |- context [if ?c then _ else _] => destruct c; try reflexivity
         end.
  rewrite (IH (i + 32 + 32)).
  destruct (decode_cleartexts n cleartexts (i + 32 + 32) zero_state)
    as [e | [[d s'] ev]]; reflexivity.
Qed.

Lemma word_at_app (pre post : list byte) (x : uint256) :
  firstn 32 (skipn (length pre) (pre ++ encode_uint256 x ++ post)) =
  encode_uint256 x.
Proof.
  rewrite skipn_app, Nat.sub_diag, skipn_all.
  change (firstn 32 (encode_uint256 x ++ post) = encode_uint256 x).
  rewrite firstn_app, encode_uint256_length, Nat.sub_diag.
  rewrite firstn_all2 by (rewrite encode_uint256_length; lia).
  apply app_nil_r.
Qed.

Lemma decode_word_at_app (pre post : list byte) (x : uint256) (start : uint256)
    (s : State) :
  start = N.of_nat (length pre) -> start + 32 < uint256_limit ->
  x < uint256_limit ->
  decode_word_at (pre ++ encode_uint256 x ++ post) start s = inr (x, s, []).
Proof.
  intros -> Hlim Hx. unfold decode_word_at, checked_add, bind, revert, ret.
  destruct (N.ltb_spec (N.of_nat (length pre) + 32) uint256_limit) as [_ | ?]; [| lia].
  rewrite !length_app, encode_uint256_length.
  destruct (N.ltb_spec (N.of_nat (length pre + (32 + length post)))
              (N.of_nat (length pre) + 32)) as [? | _]; [lia |].
  rewrite Nat2N.id, word_at_app, be_decode_encode_uint256 by exact Hx.
  reflexivity.
Qed.

(** Four words, read positionally: amounts are words 0 and 2, hedges are
    words 1 and 3. *)
Lemma decode_result_four_words (a1 h1 a2 h2 : uint256) :
  a1 < uint256_limit -> h1 < uint256_limit ->
  a2 < uint256_limit -> h2 < uint256_limit ->
  decode_result (length assets)
    (encode_uint256 a1 ++ encode_uint256 h1 ++
     encode_uint256 a2 ++ encode_uint256 h2) 0 =
  inr ([a1; a2], [h1; h2]).
Proof.
  intros Ha1 Hh1 Ha2 Hh2.
  set (w1 := encode_uint256 a1). set (w2 := encode_uint256 h1).
  set (w3 := encode_uint256 a2). set (w4 := encode_uint256 h2).
  assert (L1 : length w1 = 32%nat) by apply encode_uint256_length.
  assert (L2 : length w2 = 32%nat) by apply encode_uint256_length.
  assert (L3 : length w3 = 32%nat) by apply encode_uint256_length.
  assert (E1 : decode_word_at (w1 ++ w2 ++ w3 ++ w4) 0 zero_state
               = inr (a1, zero_state, [])).
  { apply (decode_word_at_app [] (w2 ++ w3 ++ w4) a1 0); [reflexivity | reflexivity | exact Ha1]. }
  assert (E2 : decode_word_at (w1 ++ w2 ++ w3 ++ w4) 32 zero_state
               = inr (h1, zero_state, [])).
  { apply (decode_word_at_app w1 (w3 ++ w4) h1 32);
      [rewrite L1; reflexivity | reflexivity | exact Hh1]. }
  assert (E3 : decode_word_at (w1 ++ w2 ++ w3 ++ w4) 64 zero_state
               = inr (a2, zero_state, [])).
  { replace (w1 ++ w2 ++ w3 ++ w4) with ((w1 ++ w2) ++ w3 ++ w4)
      by (rewrite <- app_assoc; reflexivity).
    apply (decode_word_at_app (w1 ++ w2) w4 a2 64);
      [rewrite length_app, L1, L2; reflexivity | reflexivity | exact Ha2]. }
  assert (E4 : decode_word_at (w1 ++ w2 ++ w3 ++ w4) 96 zero_state
               = inr (h2, zero_state, [])).
  { replace (w1 ++ w2 ++ w3 ++ w4) with ((w1 ++ w2 ++ w3) ++ w4 ++ [])
      by (rewrite app_nil_r, <- !app_assoc; reflexivity).
    apply (decode_word_at_app (w1 ++ w2 ++ w3) [] h2 96);
      [rewrite !length_app, L1, L2, L3; reflexivity | reflexivity | exact Hh2]. }
  unfold decode_result, assets, length, decode_cleartexts, bind.
  rewrite E1. unfold checked_add at 1.
  change (0 + 32) with 32. change (32 <? uint256_limit) with true.
  unfold ret at 1. rewrite E2. unfold checked_add at 1.
  change (32 + 32) with 64. change (64 <? uint256_limit) with true.
  unfold ret at 1. rewrite E3. unfold checked_add at 1.
  change (64 + 32) with 96. change (96 <? uint256_limit) with true.
  unfold ret at 1. rewrite E4. unfold checked_add at 1.
  change (96 + 32) with 128. change (128 <? uint256_limit) with true.
  reflexivity.
Qed.

Section Callback.

Variable FHE : Capability.
Variable this : address.

Lemma transact_myCallback (env : Env) (requestId : uint256)
    (cleartexts proof : list byte) (s : State) :
  transact FHE this env (MyCallback requestId cleartexts proof) s =
  let c := read_context (decryptionContexts s) requestId in
  if processed c then Reverted ReplayAttempt else
  if negb (recomputed_hash FHE this s requestId =? stateHash c) then Reverted StateMismatch else
  if negb (checkSignatures FHE requestId cleartexts proof)
  then Reverted InvalidDecryptionProof else
  match decode_result (length assets) cleartexts 0 with
  | inl e => Reverted e
  | inr d =>
      Success (finalized requestId s)
        [Event.DecryptionCompleted requestId (batchId c) (fst d) (snd d)]
  end.
Proof.
  unfold recomputed_hash, finalized.
  unfold transact, dispatch, myCallback, bind, gets, revert.
  cbv zeta.
  destruct (processed (read_context (decryptionContexts s) requestId)); [reflexivity |].
  destruct (negb (_ =? _)); [reflexivity |].
  destruct (negb (checkSignatures _ _ _ _)); [reflexivity |].
  rewrite decode_cleartexts_pure.
  destruct (decode_result (length assets) cleartexts 0) as [e | d]; reflexivity.
Qed.

(** A callback either reverts or finalizes its own request id: it writes
    nothing but the [processed] flag of that context and logs exactly one
    [DecryptionCompleted]. *)
Lemma myCallback_all_or_nothing (env : Env) (requestId : uint256)
    (cleartexts proof : list byte) (s : State) :
  (exists e, transact FHE this env (MyCallback requestId cleartexts proof) s = Reverted e) \/
  (exists amounts hedges,
     transact FHE this env (MyCallback requestId cleartexts proof) s =
     Success (finalized requestId s)
       [Event.DecryptionCompleted requestId
          (batchId (read_context (decryptionContexts s) requestId)) amounts hedges]).
Proof.
  rewrite transact_myCallback. cbv zeta.
  repeat match goal with
         | |- context [if ?c then _ else _] => destruct c; [left; eexists; reflexivity |]
         end.
  destruct (decode_result _ _ _) as [e | d];
    [left; eexists; reflexivity | right; eexists; eexists; reflexivity].
Qed.

End Callback.

(** ** Reads after writes *)

Lemma read_context_insert (m : gmap N DecryptionContext) (k k' : N) (c : DecryptionContext) :
  read_context (<[k := c]> m) k' = if decide (k = k') then c else read_context m k'.
Proof.
  unfold read_context. rewrite lookup_insert. destruct (decide (k = k')); reflexivity.
Qed.

Lemma read_bool_insert (m : gmap N bool) (k k' : N) (b : bool) :
  read_bool (<[k := b]> m) k' = if decide (k = k') then b else read_bool m k'.
Proof.
  unfold read_bool. rewrite lookup_insert. destruct (decide (k = k')); reflexivity.
Qed.

Lemma read_uint_insert (m : gmap N N) (k k' : N) (v : N) :
  read_uint (<[k := v]> m) k' = if decide (k = k') then v else read_uint m k'.
Proof.
  unfold read_uint. rewrite lookup_insert. destruct (decide (k = k')); reflexivity.
Qed.

Lemma read_handle_insert (m : gmap (N * N) N) (b a b' a' : N) (v : N) :
  read_handle (<[(b, a) := v]> m) b' a' =
  if decide ((b, a) = (b', a')) then v else read_handle m b' a'.
Proof.
  unfold read_handle. rewrite lookup_insert.
  destruct (decide ((b, a) = (b', a'))); reflexivity.
Qed.

Lemma read_context_absent (m : gmap N DecryptionContext) (k : N) :
  m !! k = None -> read_context m k = zero_context.
Proof. unfold read_context. now intros ->. Qed.

(** ** The concrete run, checked *)

Example requested_context :
  decryptionContexts Scenario.requested !! 77 =
  Some (mkContext 1
          (_hashCiphertexts mock Scenario.contract_address [501; 0; 502; 503]) false).
Proof. vm_compute. reflexivity. Qed.

Example completed_is_processed : processed_of Scenario.completed 77 = true.
Proof. vm_compute. reflexivity. Qed.

Example stranger_cannot_submit :
  Scenario.call (Scenario.at_time Scenario.stranger 1350)
    (SubmitEncryptedAssetAmount 1 Scenario.asset1 9) Scenario.submitted =
  Reverted NotProvider.
Proof. vm_compute. reflexivity. Qed.

Example submit_to_other_batch :
  Scenario.call (Scenario.at_time Scenario.provider 1400)
    (SubmitEncryptedAssetAmount 2 Scenario.asset1 9) Scenario.submitted =
  Reverted InvalidBatch.
Proof. vm_compute. reflexivity. Qed.

Example submit_to_closed_batch :
  Scenario.call (Scenario.at_time Scenario.provider 1500)
    (SubmitEncryptedHedgeAmount 1 Scenario.asset1 9) Scenario.closed =
  Reverted BatchClosed.
Proof. vm_compute. reflexivity. Qed.

Example submit_uninitialized_handle :
  Scenario.call (Scenario.at_time Scenario.provider 1400)
    (SubmitEncryptedHedgeAmount 1 Scenario.asset1 0) Scenario.submitted =
  Reverted NotInitialized.
Proof. vm_compute. reflexivity. Qed.

Example short_cleartexts :
  Scenario.call (Scenario.at_time Scenario.stranger 9000)
    (MyCallback 77 (removelast Scenario.cleartexts) Scenario.valid_proof)
    Scenario.requested =
  Reverted SliceOutOfBounds.
Proof. vm_compute. reflexivity. Qed.

Example rejected_proof :
  Scenario.call (Scenario.at_time Scenario.stranger 9000)
    (MyCallback 77 Scenario.cleartexts []) Scenario.requested =
  Reverted InvalidDecryptionProof.
Proof. vm_compute. reflexivity. Qed.

(** ** The replay guard *)

Ltac case_receipt :=
  repeat match goal with
         | |- context [if ?c then _ else _] => destruct c eqn:?
         | |- context [match ?g with Some _ => _ | None => _ end] => destruct g eqn:?
         | |- context [match ?g with inl _ => _ | inr _ => _ end] => destruct g eqn:?
         end.

Ltac rewrite_transact :=
  first [ rewrite transact_transferOwnership | rewrite transact_addProvider
        | rewrite transact_removeProvider | rewrite transact_setPaused
        | rewrite transact_setCooldownSeconds | rewrite transact_openNewBatch
        | rewrite transact_closeCurrentBatch
        | rewrite transact_submitEncryptedAssetAmount
        | rewrite transact_submitEncryptedHedgeAmount
        | rewrite transact_requestBatchDecryption
        | rewrite transact_myCallback ].

Section ReplayGuard.

Variable FHE : Capability.
Variable this : address.

Lemma replay_is_rejected (env : Env) (requestId : uint256)
    (cleartexts proof : list byte) (s : State) :
  processed_of s requestId = true ->
  transact FHE this env (MyCallback requestId cleartexts proof) s =
  Reverted ReplayAttempt.
Proof.
  unfold processed_of. intros H. rewrite transact_myCallback. cbv zeta.
  now rewrite H.
Qed.

Lemma step_keeps_processed (env : Env) (c : Call) (s : State) (requestId : uint256) :
  oracle_fresh env c s ->
  processed_of s requestId = true ->
  processed_of (storage_after FHE this env c s) requestId = true.
Proof.
  intros Hfresh Hp. unfold storage_after.
  destruct c; rewrite_transact; cbv zeta; case_receipt; try exact Hp.
  - (* a request writes an unprocessed context under the id of the oracle *)
    simpl in Hfresh. unfold processed_of in *. simpl.
    rewrite read_context_insert. destruct (decide _) as [<- |]; [| exact Hp].
    rewrite (read_context_absent _ _ Hfresh) in Hp. discriminate.
  - (* a callback sets the flag of its own id *)
    unfold processed_of, finalized in *. simpl.
    rewrite read_context_insert. destruct (decide _); [reflexivity | exact Hp].
Qed.

Lemma execute_keeps_processed (tr : list (Env * Call)) (s : State)
    (requestId : uint256) :
  oracle_ids_unique FHE this tr s ->
  processed_of s requestId = true ->
  processed_of (execute FHE this tr s) requestId = true.
Proof.
  revert s. induction tr as [| [env c] tr IH]; intros s Hu Hp; [exact Hp |].
  destruct Hu as [Hfresh Hu]. simpl. apply IH; [exact Hu |].
  now apply step_keeps_processed.
Qed.

(** C1. Once the [processed] flag of a request id is set it stays set through
    every later sequence of transactions (the oracle handing out each request
    id once), and every callback for that id then reverts with
    [ReplayAttempt], whatever cleartexts and proof it carries, leaving storage
    as it was and logging nothing. A callback that goes through found the
    flag false and leaves it true, so the flag goes from false to true at
    most once. *)
Theorem processed_is_final (tr : list (Env * Call)) (s : State)
    (requestId : uint256) (env : Env) (cleartexts proof : list byte) :
  oracle_ids_unique FHE this tr s ->
  processed_of s requestId = true ->
  let s' := execute FHE this tr s in
  processed_of s' requestId = true /\
  transact FHE this env (MyCallback requestId cleartexts proof) s' =
    Reverted ReplayAttempt /\
  storage_after FHE this env (MyCallback requestId cleartexts proof) s' = s' /\
  logs_of FHE this env (MyCallback requestId cleartexts proof) s' = [] /\
  (forall env0 cleartexts0 proof0 s0 s1 logs,
     transact FHE this env0 (MyCallback requestId cleartexts0 proof0) s0 =
       Success s1 logs ->
     processed_of s0 requestId = false /\ processed_of s1 requestId = true).
Proof.
  intros Hu Hp s'.
  assert (Hp' : processed_of s' requestId = true)
    by (now apply execute_keeps_processed).
  pose proof (replay_is_rejected env requestId cleartexts proof s' Hp') as Hr.
  split; [exact Hp' |]. split; [exact Hr |].
  destruct (reverted_is_atomic FHE this env _ s' ReplayAttempt Hr) as [Hs Hl].
  split; [exact Hs |]. split; [exact Hl |].
  intros env0 cleartexts0 proof0 s0 s1 logs Hok. split.
  - destruct (processed_of s0 requestId) eqn:Hp0; [| reflexivity].
    rewrite (replay_is_rejected env0 requestId cleartexts0 proof0 s0 Hp0) in Hok.
    discriminate.
  - destruct (myCallback_all_or_nothing FHE this env0 requestId cleartexts0 proof0 s0)
      as [[e He] | (amounts & hedges & Hfin)]; rewrite Hok in *; [discriminate |].
    injection Hfin as -> _.
    unfold processed_of, finalized. simpl. rewrite read_context_insert.
    destruct (decide _); [reflexivity | contradiction].
Qed.

End ReplayGuard.

Lemma processed_is_final_witness :
  oracle_ids_unique mock Scenario.contract_address Scenario.afterwards Scenario.completed /\
  processed_of Scenario.completed 77 = true /\
  let s' := execute mock Scenario.contract_address Scenario.afterwards Scenario.completed in
  processed_of s' 77 = true /\
  transact mock Scenario.contract_address (Scenario.at_time Scenario.stranger 9900)
    (MyCallback 77 Scenario.cleartexts Scenario.valid_proof) s' = Reverted ReplayAttempt /\
  storage_after mock Scenario.contract_address (Scenario.at_time Scenario.stranger 9900)
    (MyCallback 77 Scenario.cleartexts Scenario.valid_proof) s' = s' /\
  logs_of mock Scenario.contract_address (Scenario.at_time Scenario.stranger 9900)
    (MyCallback 77 Scenario.cleartexts Scenario.valid_proof) s' = [].
Proof.
  assert (H1 : oracle_ids_unique mock Scenario.contract_address
                 Scenario.afterwards Scenario.completed)
    by (vm_compute; repeat split; reflexivity).
  assert (H2 : processed_of Scenario.completed 77 = true) by (vm_compute; reflexivity).
  split; [exact H1 |]. split; [exact H2 |].
  destruct (processed_is_final mock Scenario.contract_address Scenario.afterwards
              Scenario.completed 77 (Scenario.at_time Scenario.stranger 9900)
              Scenario.cleartexts Scenario.valid_proof H1 H2)
    as (Ha & Hb & Hc & Hd & _).
  exact (conj Ha (conj Hb (conj Hc Hd))).
Defined.

(** ** State verification in the callback *)

Section StateVerification.

Variable FHE : Capability.
Variable this : address.

(** C2. A callback for an unprocessed context whose recomputed hash differs
    from the stored [stateHash] reverts with [StateMismatch]: storage is as
    before, the flag is still false, nothing is logged. More generally every
    callback either reverts, leaving storage and log untouched, or finalizes
    its request as a whole: the flag is set and [DecryptionCompleted] is
    logged together. *)
Theorem stale_snapshot_is_rejected (env : Env) (requestId : uint256)
    (cleartexts proof : list byte) (s : State) :
  processed_of s requestId = false ->
  recomputed_hash FHE this s requestId <>
    stateHash (read_context (decryptionContexts s) requestId) ->
  (transact FHE this env (MyCallback requestId cleartexts proof) s =
     Reverted StateMismatch /\
   storage_after FHE this env (MyCallback requestId cleartexts proof) s = s /\
   processed_of
     (storage_after FHE this env (MyCallback requestId cleartexts proof) s)
     requestId = false /\
   logs_of FHE this env (MyCallback requestId cleartexts proof) s = []) /\
  (forall env' requestId' cleartexts' proof',
     (exists e,
        transact FHE this env' (MyCallback requestId' cleartexts' proof') s =
          Reverted e /\
        storage_after FHE this env' (MyCallback requestId' cleartexts' proof') s = s /\
        logs_of FHE this env' (MyCallback requestId' cleartexts' proof') s = []) \/
     (exists amounts hedges,
        transact FHE this env' (MyCallback requestId' cleartexts' proof') s =
          Success (finalized requestId' s)
            [Event.DecryptionCompleted requestId'
               (batchId (read_context (decryptionContexts s) requestId'))
               amounts hedges] /\
        processed_of s requestId' = false /\
        processed_of (finalized requestId' s) requestId' = true)).
Proof.
  intros Hp Hne. split.
  - assert (Hr : transact FHE this env (MyCallback requestId cleartexts proof) s =
                 Reverted StateMismatch).
    { rewrite transact_myCallback. cbv zeta. unfold processed_of in Hp. rewrite Hp.
      destruct (N.eqb_spec (recomputed_hash FHE this s requestId)
                  (stateHash (read_context (decryptionContexts s) requestId)))
        as [Heq | _]; [contradiction | reflexivity]. }
    destruct (reverted_is_atomic FHE this env _ s _ Hr) as [Hs Hl].
    rewrite Hs. repeat split; assumption.
  - intros env' requestId' cleartexts' proof'.
    destruct (myCallback_all_or_nothing FHE this env' requestId' cleartexts' proof' s)
      as [[e He] | (amounts & hedges & Hok)].
    + left. exists e. split; [exact He |]. now apply reverted_is_atomic with (e := e).
    + right. exists amounts, hedges. split; [exact Hok |].
      split.
      * destruct (processed_of s requestId') eqn:Hp'; [| reflexivity].
        rewrite (replay_is_rejected FHE this env' requestId' cleartexts' proof' s Hp') in Hok.
        discriminate.
      * unfold processed_of, finalized. simpl. rewrite read_context_insert.
        destruct (decide _); [reflexivity | contradiction].
Qed.

End StateVerification.

Lemma stale_snapshot_is_rejected_witness :
  processed_of Scenario.tampered 77 = false /\
  recomputed_hash mock Scenario.contract_address Scenario.tampered 77 <>
    stateHash (read_context (decryptionContexts Scenario.tampered) 77) /\
  transact mock Scenario.contract_address (Scenario.at_time Scenario.stranger 9000)
    (MyCallback 77 Scenario.cleartexts Scenario.valid_proof) Scenario.tampered =
  Reverted StateMismatch.
Proof.
  assert (H1 : processed_of Scenario.tampered 77 = false) by (vm_compute; reflexivity).
  assert (H2 : recomputed_hash mock Scenario.contract_address Scenario.tampered 77 <>
               stateHash (read_context (decryptionContexts Scenario.tampered) 77))
    by (vm_compute; discriminate).
  split; [exact H1 |]. split; [exact H2 |].
  exact (proj1 (proj1 (stale_snapshot_is_rejected mock Scenario.contract_address
           (Scenario.at_time Scenario.stranger 9000) 77
           Scenario.cleartexts Scenario.valid_proof Scenario.tampered H1 H2))).
Defined.

(** ** The snapshot and its positional decoding *)

Section Snapshot.

Variable FHE : Capability.
Variable this : address.

(** The snapshot is the four handles in the order asset 1 amount, asset 1
    hedge, asset 2 amount, asset 2 hedge. *)
Lemma collect_cts_assets (s : State) (batch : uint256) :
  collect_cts FHE s batch assets =
  [ toBytes32 FHE (read_handle (encryptedAssetAmounts s) batch
                     0x1111111111111111111111111111111111111111);
    toBytes32 FHE (read_handle (encryptedHedgeAmounts s) batch
                     0x1111111111111111111111111111111111111111);
    toBytes32 FHE (read_handle (encryptedAssetAmounts s) batch
                     0x2222222222222222222222222222222222222222);
    toBytes32 FHE (read_handle (encryptedHedgeAmounts s) batch
                     0x2222222222222222222222222222222222222222) ].
Proof. reflexivity. Qed.

Lemma collect_cts_cons (s : State) (batch : uint256) (a : address)
    (l : list address) :
  collect_cts FHE s batch (a :: l) =
  toBytes32 FHE (read_handle (encryptedAssetAmounts s) batch a) ::
  toBytes32 FHE (read_handle (encryptedHedgeAmounts s) batch a) ::
  collect_cts FHE s batch l.
Proof. reflexivity. Qed.

(** The snapshot reads the two submission mappings and nothing else. *)
Lemma collect_cts_reads_submissions (s1 s2 : State) (batch : uint256)
    (l : list address) :
  encryptedAssetAmounts s1 = encryptedAssetAmounts s2 ->
  encryptedHedgeAmounts s1 = encryptedHedgeAmounts s2 ->
  collect_cts FHE s1 batch l = collect_cts FHE s2 batch l.
Proof.
  intros Ha Hh. induction l as [| a l IH]; [reflexivity |].
  rewrite !collect_cts_cons. now rewrite Ha, Hh, IH.
Qed.

Lemma request_guard_passes (env : Env) (batch : uint256) (s : State) :
  msg_sender env = owner s ->
  paused s = false ->
  read_uint (lastDecryptionRequestTime s) (msg_sender env) + cooldownSeconds s
    <= block_timestamp env ->
  block_timestamp env < uint256_limit ->
  read_bool (isBatchClosed s) batch = true ->
  request_guard env batch s = None.
Proof.
  intros Ho Hp Hcd Hnow Hc. unfold request_guard.
  rewrite Ho, N.eqb_refl, Hp. simpl. rewrite <- Ho.
  destruct (N.ltb_spec (read_uint (lastDecryptionRequestTime s) (msg_sender env)
                        + cooldownSeconds s) uint256_limit); [| lia].
  destruct (N.ltb_spec (block_timestamp env)
              (read_uint (lastDecryptionRequestTime s) (msg_sender env)
               + cooldownSeconds s)); [lia |].
  now rewrite Hc.
Qed.

(** C3. A decryption request by the owner on a closed batch (not paused,
    cooldown elapsed) succeeds; the handles it snapshots are the four slots
    asset 1 amount, asset 1 hedge, asset 2 amount, asset 2 hedge, in this
    order; [stateHash] is the hash of the encoding of that list together
    with the contract's own address; the context is stored unprocessed under
    the id the oracle returned and [DecryptionRequested] is logged. A callback
    for that id with an accepted proof then decodes the cleartext words
    positionally: words 0 and 2 are the amounts, words 1 and 3 the hedges; in
    particular the words 100, 0, 50, 20 give amounts 100, 50 and hedges
    0, 20. *)
Theorem request_snapshot_and_callback_decoding (env : Env) (batch : uint256)
    (s : State) :
  msg_sender env = owner s ->
  paused s = false ->
  read_uint (lastDecryptionRequestTime s) (msg_sender env) + cooldownSeconds s
    <= block_timestamp env ->
  block_timestamp env < uint256_limit ->
  read_bool (isBatchClosed s) batch = true ->
  let cts :=
    [ toBytes32 FHE (read_handle (encryptedAssetAmounts s) batch
                       0x1111111111111111111111111111111111111111);
      toBytes32 FHE (read_handle (encryptedHedgeAmounts s) batch
                       0x1111111111111111111111111111111111111111);
      toBytes32 FHE (read_handle (encryptedAssetAmounts s) batch
                       0x2222222222222222222222222222222222222222);
      toBytes32 FHE (read_handle (encryptedHedgeAmounts s) batch
                       0x2222222222222222222222222222222222222222) ] in
  let hash := keccak256 FHE (abi_encode cts this) in
  let requestId := oracle_requestId env in
  exists s1,
    transact FHE this env (RequestBatchDecryption batch) s =
      Success s1 [Event.DecryptionRequested requestId batch hash] /\
    decryptionContexts s1 !! requestId = Some (mkContext batch hash false) /\
    (forall env' proof a1 h1 a2 h2,
       a1 < uint256_limit -> h1 < uint256_limit ->
       a2 < uint256_limit -> h2 < uint256_limit ->
       let cleartexts :=
         encode_uint256 a1 ++ encode_uint256 h1 ++
         encode_uint256 a2 ++ encode_uint256 h2 in
       checkSignatures FHE requestId cleartexts proof = true ->
       transact FHE this env' (MyCallback requestId cleartexts proof) s1 =
         Success (finalized requestId s1)
           [Event.DecryptionCompleted requestId batch [a1; a2] [h1; h2]]) /\
    (forall env' proof,
       let cleartexts :=
         encode_uint256 100 ++ encode_uint256 0 ++
         encode_uint256 50 ++ encode_uint256 20 in
       checkSignatures FHE requestId cleartexts proof = true ->
       transact FHE this env' (MyCallback requestId cleartexts proof) s1 =
         Success (finalized requestId s1)
           [Event.DecryptionCompleted requestId batch [100; 50] [0; 20]]).
Proof.
  intros Ho Hp Hcd Hnow Hc cts hash requestId.
  pose proof (request_guard_passes env batch s Ho Hp Hcd Hnow Hc) as Hg.
  eexists. split.
  { rewrite transact_requestBatchDecryption, Hg. cbv zeta.
    rewrite collect_cts_assets. reflexivity. }
  set (s1 := set_lastDecryptionRequestTime _ _).
  assert (Hctx : decryptionContexts s1 !! requestId = Some (mkContext batch hash false)).
  { subst s1. simpl. apply lookup_insert_eq. }
  assert (Hcb : forall env' proof a1 h1 a2 h2,
       a1 < uint256_limit -> h1 < uint256_limit ->
       a2 < uint256_limit -> h2 < uint256_limit ->
       checkSignatures FHE requestId
         (encode_uint256 a1 ++ encode_uint256 h1 ++
          encode_uint256 a2 ++ encode_uint256 h2) proof = true ->
       transact FHE this env'
         (MyCallback requestId
            (encode_uint256 a1 ++ encode_uint256 h1 ++
             encode_uint256 a2 ++ encode_uint256 h2) proof) s1 =
         Success (finalized requestId s1)
           [Event.DecryptionCompleted requestId batch [a1; a2] [h1; h2]]).
  { intros env' proof a1 h1 a2 h2 Ha1 Hh1 Ha2 Hh2 Hsig.
    rewrite transact_myCallback. cbv zeta.
    unfold recomputed_hash, read_context. rewrite Hctx.
    cbn [from_option id batchId stateHash processed].
    rewrite (collect_cts_reads_submissions s1 s batch assets eq_refl eq_refl).
    rewrite collect_cts_assets. fold cts. unfold _hashCiphertexts. fold hash.
    rewrite N.eqb_refl, Hsig. cbn [negb].
    rewrite (decode_result_four_words a1 h1 a2 h2 Ha1 Hh1 Ha2 Hh2).
    reflexivity. }
  split; [exact Hctx |]. split.
  - intros env' proof a1 h1 a2 h2 Ha1 Hh1 Ha2 Hh2 cleartexts Hsig.
    now apply Hcb.
  - intros env' proof cleartexts Hsig.
    apply Hcb; try reflexivity. exact Hsig.
Qed.

End Snapshot.

Lemma request_snapshot_and_callback_decoding_witness :
  exists s1 hash,
    transact mock Scenario.contract_address (Scenario.at_time Scenario.deployer 1500)
      (RequestBatchDecryption 1) Scenario.closed =
      Success s1 [Event.DecryptionRequested 77 1 hash] /\
    decryptionContexts s1 !! 77 = Some (mkContext 1 hash false) /\
    transact mock Scenario.contract_address (Scenario.at_time Scenario.stranger 9000)
      (MyCallback 77 Scenario.cleartexts Scenario.valid_proof) s1 =
      Success (finalized 77 s1) [Event.DecryptionCompleted 77 1 [100; 50] [0; 20]].
Proof.
  destruct (request_snapshot_and_callback_decoding mock Scenario.contract_address
              (Scenario.at_time Scenario.deployer 1500) 1 Scenario.closed)
    as (s1 & Hreq & Hctx & _ & Hcb).
  - vm_compute; reflexivity.
  - vm_compute; reflexivity.
  - vm_compute; discriminate.
  - vm_compute; reflexivity.
  - vm_compute; reflexivity.
  - exists s1. eexists. split; [exact Hreq |]. split; [exact Hctx |].
    apply Hcb. vm_compute. reflexivity.
Defined.

(** ** Callbacks for unknown request ids *)

Section UnknownRequest.

Variable FHE : Capability.
Variable this : address.

(** C7, as the contract has it. A callback for a request id under which no
    context is stored never reverts with [InvalidBatch]: the contract does not
    look for the context, it reads the zero context (batch 0, hash 0,
    unprocessed). Whenever the hash of the handles stored for batch 0 is not
    zero, the callback reverts with [StateMismatch], storage is as before and
    nothing is logged. *)
Theorem callback_without_context (env : Env) (requestId : uint256)
    (cleartexts proof : list byte) (s : State) :
  decryptionContexts s !! requestId = None ->
  transact FHE this env (MyCallback requestId cleartexts proof) s <>
    Reverted InvalidBatch /\
  (_hashCiphertexts FHE this (collect_cts FHE s 0 assets) <> 0 ->
   transact FHE this env (MyCallback requestId cleartexts proof) s =
     Reverted StateMismatch /\
   storage_after FHE this env (MyCallback requestId cleartexts proof) s = s /\
   logs_of FHE this env (MyCallback requestId cleartexts proof) s = []).
Proof.
  intros Hnone.
  assert (Hctx : read_context (decryptionContexts s) requestId = zero_context)
    by (now apply read_context_absent).
  split.
  - rewrite transact_myCallback. cbv zeta. case_receipt; try discriminate.
    (* the decoding loop fails with a built-in error only *)
    match goal with H : decode_result _ _ _ = inl _ |- _ => rename H into Hd end.
    intros Heq. inversion Heq; subst. clear -Hd.
    unfold decode_result, assets, length, decode_cleartexts, decode_word_at,
      checked_add, bind, revert, ret in Hd.
    repeat match type of Hd with
           | context [if ?c then _ else _] => destruct c
           end; discriminate.
  - intros Hhash.
    assert (Hr : transact FHE this env (MyCallback requestId cleartexts proof) s =
                 Reverted StateMismatch).
    { rewrite transact_myCallback. cbv zeta. unfold recomputed_hash.
      rewrite Hctx. cbn [processed batchId stateHash zero_context].
      destruct (N.eqb_spec (_hashCiphertexts FHE this (collect_cts FHE s 0 assets)) 0)
        as [Heq | _]; [contradiction | reflexivity]. }
    split; [exact Hr |]. now apply reverted_is_atomic with (e := StateMismatch).
Qed.

End UnknownRequest.

Lemma callback_without_context_witness :
  decryptionContexts Scenario.requested !! 5 = None /\
  _hashCiphertexts mock Scenario.contract_address
    (collect_cts mock Scenario.requested 0 assets) <> 0 /\
  transact mock Scenario.contract_address (Scenario.at_time Scenario.stranger 9000)
    (MyCallback 5 Scenario.cleartexts Scenario.valid_proof) Scenario.requested <>
    Reverted InvalidBatch /\
  storage_after mock Scenario.contract_address (Scenario.at_time Scenario.stranger 9000)
    (MyCallback 5 Scenario.cleartexts Scenario.valid_proof) Scenario.requested =
    Scenario.requested.
Proof.
  assert (H1 : decryptionContexts Scenario.requested !! 5 = None)
    by (vm_compute; reflexivity).
  assert (H2 : _hashCiphertexts mock Scenario.contract_address
                 (collect_cts mock Scenario.requested 0 assets) <> 0)
    by (vm_compute; discriminate).
  split; [exact H1 |]. split; [exact H2 |].
  destruct (callback_without_context mock Scenario.contract_address
              (Scenario.at_time Scenario.stranger 9000) 5
              Scenario.cleartexts Scenario.valid_proof Scenario.requested H1)
    as [Hne Hsm].
  split; [exact Hne |]. exact (proj1 (proj2 (Hsm H2))).
Defined.

(** C7 as the specification words it fails on the mock run: request id 5 has
    no context, and the callback reverts with [StateMismatch], not with
    [InvalidBatch]. *)
Lemma missing_context_is_not_invalid_batch :
  decryptionContexts Scenario.requested !! 5 = None /\
  Scenario.call (Scenario.at_time Scenario.stranger 9000)
    (MyCallback 5 Scenario.cleartexts Scenario.valid_proof) Scenario.requested =
    Reverted StateMismatch /\
  Scenario.call (Scenario.at_time Scenario.stranger 9000)
    (MyCallback 5 Scenario.cleartexts Scenario.valid_proof) Scenario.requested <>
    Reverted InvalidBatch.
Proof.
  assert (H : Scenario.call (Scenario.at_time Scenario.stranger 9000)
                (MyCallback 5 Scenario.cleartexts Scenario.valid_proof)
                Scenario.requested = Reverted StateMismatch)
    by (vm_compute; reflexivity).
  split; [vm_compute; reflexivity |]. split; [exact H |].
  rewrite H. discriminate.
Qed.

(** ** Requests on batches that are not closed *)

Section OpenBatchRequest.

Variable FHE : Capability.
Variable this : address.

(** C8. A decryption request for a batch that is not closed reverts: no
    context is created, the requester's cooldown timestamp is as before,
    storage as a whole is as before and nothing is logged. The error is
    [InvalidBatch] whenever the modifiers in front of the body let the call
    through (the caller is the owner, the contract is not paused, the
    cooldown has elapsed). *)
Theorem request_on_open_batch_fails (env : Env) (batch : uint256) (s : State) :
  read_bool (isBatchClosed s) batch = false ->
  let s' := storage_after FHE this env (RequestBatchDecryption batch) s in
  (exists e, transact FHE this env (RequestBatchDecryption batch) s = Reverted e) /\
  s' = s /\
  decryptionContexts s' = decryptionContexts s /\
  read_uint (lastDecryptionRequestTime s') (msg_sender env) =
    read_uint (lastDecryptionRequestTime s) (msg_sender env) /\
  logs_of FHE this env (RequestBatchDecryption batch) s = [] /\
  (msg_sender env = owner s ->
   paused s = false ->
   read_uint (lastDecryptionRequestTime s) (msg_sender env) + cooldownSeconds s
     <= block_timestamp env ->
   block_timestamp env < uint256_limit ->
   transact FHE this env (RequestBatchDecryption batch) s = Reverted InvalidBatch).
Proof.
  intros Hopen s'.
  assert (Hrev : exists e, request_guard env batch s = Some e).
  { unfold request_guard. rewrite Hopen. cbn [negb].
    case_receipt; eexists; reflexivity. }
  destruct Hrev as [e He].
  assert (Hr : transact FHE this env (RequestBatchDecryption batch) s = Reverted e)
    by (now rewrite transact_requestBatchDecryption, He).
  destruct (reverted_is_atomic FHE this env _ s e Hr) as [Hs Hl].
  subst s'. rewrite Hs.
  split; [now exists e |]. repeat (split; [reflexivity || assumption |]).
  intros Ho Hp Hcd Hnow.
  rewrite transact_requestBatchDecryption. unfold request_guard.
  rewrite Ho, N.eqb_refl, Hp. simpl. rewrite <- Ho.
  destruct (N.ltb_spec (read_uint (lastDecryptionRequestTime s) (msg_sender env)
                        + cooldownSeconds s) uint256_limit); [| lia].
  destruct (N.ltb_spec (block_timestamp env)
              (read_uint (lastDecryptionRequestTime s) (msg_sender env)
               + cooldownSeconds s)); [lia |].
  now rewrite Hopen.
Qed.

End OpenBatchRequest.

Lemma request_on_open_batch_fails_witness :
  read_bool (isBatchClosed Scenario.submitted) 1 = false /\
  transact mock Scenario.contract_address (Scenario.at_time Scenario.deployer 1400)
    (RequestBatchDecryption 1) Scenario.submitted = Reverted InvalidBatch /\
  storage_after mock Scenario.contract_address (Scenario.at_time Scenario.deployer 1400)
    (RequestBatchDecryption 1) Scenario.submitted = Scenario.submitted.
Proof.
  assert (H1 : read_bool (isBatchClosed Scenario.submitted) 1 = false)
    by (vm_compute; reflexivity).
  split; [exact H1 |].
  destruct (request_on_open_batch_fails mock Scenario.contract_address
              (Scenario.at_time Scenario.deployer 1400) 1 Scenario.submitted H1)
    as (_ & Hs & _ & _ & _ & Herr).
  split; [| exact Hs].
  apply Herr.
  - vm_compute; reflexivity.
  - vm_compute; reflexivity.
  - vm_compute; discriminate.
  - vm_compute; reflexivity.
Defined.

(** ** Submissions and the cooldown *)

Section SubmitCooldown.

Variable FHE : Capability.
Variable this : address.

Lemma transact_submit (env : Env) (k : Kind) (batch : uint256) (asset : address)
    (handle : euint32) (s : State) :
  transact FHE this env (submit k batch asset handle) s =
  match submit_guard FHE env batch handle s with
  | Some e => Reverted e
  | None =>
      Success
        (set_lastSubmissionTime
           (<[msg_sender env := block_timestamp env]> (lastSubmissionTime s))
           match k with
           | Amount =>
               set_encryptedAssetAmounts
                 (<[(batch, asset) := handle]> (encryptedAssetAmounts s)) s
           | Hedge =>
               set_encryptedHedgeAmounts
                 (<[(batch, asset) := handle]> (encryptedHedgeAmounts s)) s
           end)
        [match k with
         | Amount => Event.AssetSubmitted batch (msg_sender env) asset handle
         | Hedge => Event.HedgeSubmitted batch (msg_sender env) asset handle
         end]
  end.
Proof.
  destruct k; unfold submit.
  - apply transact_submitEncryptedAssetAmount.
  - apply transact_submitEncryptedHedgeAmount.
Qed.

(** What a submission that got through has checked. *)
Lemma submit_guard_passed (env : Env) (batch : uint256) (handle : euint32)
    (s : State) :
  submit_guard FHE env batch handle s = None ->
  read_bool (isProvider s) (msg_sender env) = true /\
  paused s = false /\
  read_uint (lastSubmissionTime s) (msg_sender env) + cooldownSeconds s
    <= block_timestamp env /\
  batch = currentBatchId s /\
  read_bool (isBatchClosed s) batch = false /\
  isInitialized FHE handle = true.
Proof.
  unfold submit_guard.
  destruct (read_bool (isProvider s) (msg_sender env)); [| discriminate].
  destruct (paused s); [discriminate |]. cbn [negb].
  destruct (N.ltb_spec (read_uint (lastSubmissionTime s) (msg_sender env)
                        + cooldownSeconds s) uint256_limit); [| discriminate].
  destruct (N.ltb_spec (block_timestamp env)
              (read_uint (lastSubmissionTime s) (msg_sender env)
               + cooldownSeconds s)); [discriminate |].
  destruct (N.eqb_spec batch (currentBatchId s)); [| discriminate]. cbn [negb].
  destruct (read_bool (isBatchClosed s) batch); [discriminate |].
  destruct (isInitialized FHE handle); [| discriminate].
  intros _. repeat split; try reflexivity; assumption.
Qed.

(** C5. After a provider's submission went through at time [t1], a second
    submission by the same provider at a time before [t1 + cooldownSeconds]
    reverts with [CooldownActive]; the handle the first submission stored is
    still stored and the provider's [lastSubmissionTime] is still [t1].
    Every submission that reverts, for whatever reason, leaves storage as it
    was and logs nothing. *)
Theorem failed_submit_is_atomic (env1 env2 : Env) (k1 k2 : Kind)
    (b1 b2 : uint256) (a1 a2 : address) (h1 h2 : euint32)
    (s s1 : State) (logs : list Event.t) :
  transact FHE this env1 (submit k1 b1 a1 h1) s = Success s1 logs ->
  msg_sender env2 = msg_sender env1 ->
  block_timestamp env2 < block_timestamp env1 + cooldownSeconds s ->
  block_timestamp env1 + cooldownSeconds s < uint256_limit ->
  let s2 := storage_after FHE this env2 (submit k2 b2 a2 h2) s1 in
  stored_handle k1 s1 b1 a1 = h1 /\
  read_uint (lastSubmissionTime s1) (msg_sender env1) = block_timestamp env1 /\
  transact FHE this env2 (submit k2 b2 a2 h2) s1 = Reverted CooldownActive /\
  s2 = s1 /\
  stored_handle k1 s2 b1 a1 = h1 /\
  read_uint (lastSubmissionTime s2) (msg_sender env1) = block_timestamp env1 /\
  logs_of FHE this env2 (submit k2 b2 a2 h2) s1 = [] /\
  (forall env k b a h s0 e,
     transact FHE this env (submit k b a h) s0 = Reverted e ->
     storage_after FHE this env (submit k b a h) s0 = s0 /\
     logs_of FHE this env (submit k b a h) s0 = []).
Proof.
  intros Hok Hsender Hsoon Hfit s2.
  rewrite transact_submit in Hok.
  destruct (submit_guard FHE env1 b1 h1 s) eqn:Hg; [discriminate |].
  destruct (submit_guard_passed env1 b1 h1 s Hg) as (Hprov & Hpause & _).
  injection Hok as Hs1 _.
  assert (Hstored : stored_handle k1 s1 b1 a1 = h1).
  { subst s1. destruct k1; simpl; rewrite read_handle_insert;
      destruct (decide _); congruence. }
  assert (Hlast : read_uint (lastSubmissionTime s1) (msg_sender env1) =
                  block_timestamp env1).
  { subst s1. simpl. rewrite read_uint_insert. destruct (decide _); congruence. }
  assert (Hprov1 : read_bool (isProvider s1) (msg_sender env1) = true)
    by (subst s1; destruct k1; exact Hprov).
  assert (Hpause1 : paused s1 = false) by (subst s1; destruct k1; exact Hpause).
  assert (Hcd1 : cooldownSeconds s1 = cooldownSeconds s)
    by (subst s1; destruct k1; reflexivity).
  assert (Hr : transact FHE this env2 (submit k2 b2 a2 h2) s1 =
               Reverted CooldownActive).
  { rewrite transact_submit. unfold submit_guard.
    rewrite Hsender, Hprov1, Hpause1, Hlast, Hcd1. cbn [negb].
    destruct (N.ltb_spec (block_timestamp env1 + cooldownSeconds s) uint256_limit);
      [| lia].
    destruct (N.ltb_spec (block_timestamp env2)
                (block_timestamp env1 + cooldownSeconds s)); [reflexivity | lia]. }
  destruct (reverted_is_atomic FHE this env2 _ s1 _ Hr) as [Hs2 Hl2].
  subst s2. rewrite Hs2.
  do 7 (split; [assumption || reflexivity |]).
  intros env k b a h s0 e He. now apply reverted_is_atomic with (e := e).
Qed.

End SubmitCooldown.

Lemma failed_submit_is_atomic_witness :
  transact mock Scenario.contract_address (Scenario.at_time Scenario.provider 1300)
    (submit Hedge 1 Scenario.asset2 503) Scenario.two_submitted =
    Success Scenario.submitted
      [Event.HedgeSubmitted 1 Scenario.provider Scenario.asset2 503] /\
  transact mock Scenario.contract_address (Scenario.at_time Scenario.provider 1330)
    (submit Hedge 1 Scenario.asset2 999) Scenario.submitted = Reverted CooldownActive /\
  stored_handle Hedge
    (storage_after mock Scenario.contract_address
       (Scenario.at_time Scenario.provider 1330)
       (submit Hedge 1 Scenario.asset2 999) Scenario.submitted) 1 Scenario.asset2 = 503 /\
  read_uint
    (lastSubmissionTime
       (storage_after mock Scenario.contract_address
          (Scenario.at_time Scenario.provider 1330)
          (submit Hedge 1 Scenario.asset2 999) Scenario.submitted))
    Scenario.provider = 1300.
Proof.
  pose (env1 := Scenario.at_time Scenario.provider 1300).
  pose (env2 := Scenario.at_time Scenario.provider 1330).
  pose (s := Scenario.two_submitted).
  assert (H1 : transact mock Scenario.contract_address env1
                 (submit Hedge 1 Scenario.asset2 503) s = Success Scenario.submitted
                 [Event.HedgeSubmitted 1 Scenario.provider Scenario.asset2 503])
    by (vm_compute; reflexivity).
  split; [exact H1 |].
  destruct (failed_submit_is_atomic mock Scenario.contract_address env1 env2
              Hedge Hedge 1 1 Scenario.asset2 Scenario.asset2 503 999
              s Scenario.submitted _ H1)
    as (_ & _ & Hr & _ & Hh & Ht & _).
  - reflexivity.
  - vm_compute; reflexivity.
  - vm_compute; reflexivity.
  - split; [exact Hr |]. split; [exact Hh | exact Ht].
Defined.

(** ** The pause flag *)

Section Pause.

Variable FHE : Capability.
Variable this : address.

Lemma set_paused_same (s : State) (p : bool) : paused s = p -> set_paused p s = s.
Proof. destruct s; simpl; intros <-; reflexivity. Qed.

(** The callback never reads the pause flag. *)
Lemma callback_ignores_pause (env : Env) (requestId : uint256)
    (cleartexts proof : list byte) (p : bool) (s : State) :
  transact FHE this env (MyCallback requestId cleartexts proof) (set_paused p s) =
  match transact FHE this env (MyCallback requestId cleartexts proof) s with
  | Success s' logs => Success (set_paused p s') logs
  | Reverted e => Reverted e
  end.
Proof.
  rewrite !transact_myCallback. cbv zeta. unfold recomputed_hash.
  rewrite (collect_cts_reads_submissions FHE (set_paused p s) s _ assets eq_refl eq_refl).
  change (decryptionContexts (set_paused p s)) with (decryptionContexts s).
  case_receipt; reflexivity.
Qed.

(** C6, as the contract has it. While [paused] is set, [openNewBatch],
    [closeCurrentBatch], [requestBatchDecryption] and both submission
    functions revert for every caller: with [Paused] when the caller passes
    the role check that comes first, with [NotOwner] or [NotProvider]
    otherwise. The five administrative functions still succeed for the
    owner. The callback carries no pause check: its receipt is the one it
    would have with the flag cleared. *)
Theorem pause_gates_all_but_admin_and_callback (env : Env) (s : State) :
  paused s = true ->
  transact FHE this env OpenNewBatch s =
    Reverted (if msg_sender env =? owner s then Paused else NotOwner) /\
  transact FHE this env CloseCurrentBatch s =
    Reverted (if msg_sender env =? owner s then Paused else NotOwner) /\
  (forall batch,
     transact FHE this env (RequestBatchDecryption batch) s =
       Reverted (if msg_sender env =? owner s then Paused else NotOwner)) /\
  (forall k batch asset handle,
     transact FHE this env (submit k batch asset handle) s =
       Reverted (if read_bool (isProvider s) (msg_sender env)
                 then Paused else NotProvider)) /\
  (msg_sender env = owner s ->
   (forall a, transact FHE this env (TransferOwnership a) s =
      Success (set_owner a s) [Event.OwnershipTransferred (owner s) a]) /\
   (forall a, transact FHE this env (AddProvider a) s =
      Success (set_isProvider (<[a := true]> (isProvider s)) s)
        [Event.ProviderAdded a]) /\
   (forall a, transact FHE this env (RemoveProvider a) s =
      Success (set_isProvider (<[a := false]> (isProvider s)) s)
        [Event.ProviderRemoved a]) /\
   (forall b, transact FHE this env (SetPaused b) s =
      Success (set_paused b s) [Event.PauseToggled b]) /\
   (forall n, transact FHE this env (SetCooldownSeconds n) s =
      Success (set_cooldownSeconds n s)
        [Event.CooldownSecondsChanged (cooldownSeconds s) n])) /\
  (forall requestId cleartexts proof,
     transact FHE this env (MyCallback requestId cleartexts proof) s =
     match transact FHE this env (MyCallback requestId cleartexts proof)
             (set_paused false s) with
     | Success s' logs => Success (set_paused true s') logs
     | Reverted e => Reverted e
     end).
Proof.
  intros Hp. repeat apply conj.
  - rewrite transact_openNewBatch, Hp. now destruct (_ =? _).
  - rewrite transact_closeCurrentBatch, Hp. now destruct (_ =? _).
  - intros batch. rewrite transact_requestBatchDecryption. unfold request_guard.
    rewrite Hp. now destruct (_ =? _).
  - intros k batch asset handle. rewrite transact_submit. unfold submit_guard.
    rewrite Hp. now destruct (read_bool _ _).
  - intros Ho. repeat apply conj; intros x.
    + now rewrite transact_transferOwnership, Ho, N.eqb_refl.
    + now rewrite transact_addProvider, Ho, N.eqb_refl.
    + now rewrite transact_removeProvider, Ho, N.eqb_refl.
    + now rewrite transact_setPaused, Ho, N.eqb_refl.
    + now rewrite transact_setCooldownSeconds, Ho, N.eqb_refl.
  - intros requestId cleartexts proof.
    rewrite <- (callback_ignores_pause env requestId cleartexts proof true
                  (set_paused false s)).
    replace (set_paused true (set_paused false s)) with s; [reflexivity |].
    symmetry. now apply (set_paused_same s true) in Hp as <-.
Qed.

End Pause.

Lemma pause_gates_all_but_admin_and_callback_witness :
  paused Scenario.paused_pending = true /\
  transact mock Scenario.contract_address (Scenario.at_time Scenario.deployer 1700)
    CloseCurrentBatch Scenario.paused_pending = Reverted Paused /\
  transact mock Scenario.contract_address (Scenario.at_time Scenario.deployer 1700)
    (AddProvider Scenario.stranger) Scenario.paused_pending =
    Success
      (set_isProvider (<[Scenario.stranger := true]> (isProvider Scenario.paused_pending))
         Scenario.paused_pending)
      [Event.ProviderAdded Scenario.stranger].
Proof.
  assert (H1 : paused Scenario.paused_pending = true) by (vm_compute; reflexivity).
  split; [exact H1 |].
  destruct (pause_gates_all_but_admin_and_callback mock Scenario.contract_address
              (Scenario.at_time Scenario.deployer 1700) Scenario.paused_pending H1)
    as (_ & Hclose & _ & _ & Hadmin & _).
  assert (Ho : msg_sender (Scenario.at_time Scenario.deployer 1700) =
               owner Scenario.paused_pending) by (vm_compute; reflexivity).
  destruct (Hadmin Ho) as (_ & Hadd & _).
  split.
  - rewrite Hclose. vm_compute. reflexivity.
  - exact (Hadd Scenario.stranger).
Defined.

(** C6 as the specification words it fails on the mock run: the contract is
    paused, and the callback for the pending request goes through, sets
    [processed] and logs [DecryptionCompleted]. *)
Lemma callback_succeeds_while_paused :
  paused Scenario.paused_pending = true /\
  Scenario.call (Scenario.at_time Scenario.stranger 9000)
    (MyCallback 77 Scenario.cleartexts Scenario.valid_proof) Scenario.paused_pending =
    Success (finalized 77 Scenario.paused_pending)
      [Event.DecryptionCompleted 77 1 [100; 50] [0; 20]] /\
  Scenario.call (Scenario.at_time Scenario.stranger 9000)
    (MyCallback 77 Scenario.cleartexts Scenario.valid_proof) Scenario.paused_pending <>
    Reverted Paused /\
  processed_of (finalized 77 Scenario.paused_pending) 77 = true.
Proof.
  assert (H : Scenario.call (Scenario.at_time Scenario.stranger 9000)
                (MyCallback 77 Scenario.cleartexts Scenario.valid_proof)
                Scenario.paused_pending =
              Success (finalized 77 Scenario.paused_pending)
                [Event.DecryptionCompleted 77 1 [100; 50] [0; 20]])
    by (vm_compute; reflexivity).
  split; [vm_compute; reflexivity |]. split; [exact H |].
  split; [rewrite H; discriminate | vm_compute; reflexivity].
Qed.

(** ** Ownership *)

Section Ownership.

Variable FHE : Capability.
Variable this : address.

Lemma owner_only_reverts (env : Env) (c : Call) (s : State) :
  owner_only c = true ->
  msg_sender env <> owner s ->
  transact FHE this env c s = Reverted NotOwner.
Proof.
  intros Hc Hne.
  assert (Hneq : (msg_sender env =? owner s) = false) by (now apply N.eqb_neq).
  destruct c; try discriminate Hc; rewrite_transact;
    unfold request_guard; now rewrite Hneq.
Qed.

Lemma zero_owner_step (env : Env) (c : Call) (s : State) :
  owner s = 0 -> msg_sender env <> 0 ->
  owner (storage_after FHE this env c s) = 0.
Proof.
  intros Ho Hne.
  assert (Hne' : msg_sender env <> owner s) by (now rewrite Ho).
  destruct (owner_only c) eqn:Hc.
  - unfold storage_after. now rewrite (owner_only_reverts env c s Hc Hne').
  - unfold storage_after.
    destruct c; try discriminate Hc; rewrite_transact; cbv zeta;
      case_receipt; exact Ho.
Qed.

Lemma zero_owner_execute (tr : list (Env * Call)) (s : State) :
  owner s = 0 -> callers_nonzero tr ->
  owner (execute FHE this tr s) = 0.
Proof.
  revert s. induction tr as [| [env c] tr IH]; intros s Ho Hnz; [exact Ho |].
  inversion Hnz as [| ? ? Hhd Htl]; subst. simpl.
  apply IH; [| exact Htl]. now apply zero_owner_step.
Qed.

(** C10. Called by the owner, [transferOwnership] succeeds for every
    [newOwner], the zero address and the current owner included; it checks
    nothing about the new owner, sets [owner] to it and logs
    [OwnershipTransferred]. When the new owner is the zero address, then after
    any later run of transactions (none of them sent from the zero address)
    [owner] is still zero and every owner-only function reverts with
    [NotOwner] for every caller. *)
Theorem transferOwnership_is_unchecked (env0 : Env) (s0 : State)
    (newOwner : address) :
  msg_sender env0 = owner s0 ->
  transact FHE this env0 (TransferOwnership newOwner) s0 =
    Success (set_owner newOwner s0)
      [Event.OwnershipTransferred (owner s0) newOwner] /\
  owner (storage_after FHE this env0 (TransferOwnership newOwner) s0) = newOwner /\
  (newOwner = 0 ->
   forall tr env c,
     callers_nonzero tr -> msg_sender env <> 0 -> owner_only c = true ->
     let s := execute FHE this tr
                (storage_after FHE this env0 (TransferOwnership newOwner) s0) in
     owner s = 0 /\ transact FHE this env c s = Reverted NotOwner).
Proof.
  intros Ho.
  assert (Hr : transact FHE this env0 (TransferOwnership newOwner) s0 =
               Success (set_owner newOwner s0)
                 [Event.OwnershipTransferred (owner s0) newOwner])
    by (now rewrite transact_transferOwnership, Ho, N.eqb_refl).
  assert (Hs : storage_after FHE this env0 (TransferOwnership newOwner) s0 =
               set_owner newOwner s0)
    by (unfold storage_after; now rewrite Hr).
  split; [exact Hr |]. split; [now rewrite Hs |].
  intros -> tr env c Hnz Hne Hc s.
  assert (Hz : owner s = 0).
  { subst s. apply zero_owner_execute; [now rewrite Hs | exact Hnz]. }
  split; [exact Hz |].
  apply owner_only_reverts; [exact Hc | now rewrite Hz].
Qed.

End Ownership.

Lemma transferOwnership_is_unchecked_witness :
  msg_sender (Scenario.at_time Scenario.deployer 1010) = owner Scenario.fresh /\
  callers_nonzero Scenario.takeover_attempts /\
  transact mock Scenario.contract_address (Scenario.at_time Scenario.deployer 1010)
    (TransferOwnership 0) Scenario.fresh =
    Success (set_owner 0 Scenario.fresh)
      [Event.OwnershipTransferred (owner Scenario.fresh) 0] /\
  transact mock Scenario.contract_address (Scenario.at_time Scenario.deployer 2400)
    (TransferOwnership Scenario.deployer)
    (execute mock Scenario.contract_address Scenario.takeover_attempts
       (storage_after mock Scenario.contract_address
          (Scenario.at_time Scenario.deployer 1010) (TransferOwnership 0)
          Scenario.fresh)) =
    Reverted NotOwner.
Proof.
  assert (H1 : msg_sender (Scenario.at_time Scenario.deployer 1010) =
               owner Scenario.fresh) by (vm_compute; reflexivity).
  assert (H2 : callers_nonzero Scenario.takeover_attempts)
    by (repeat constructor; vm_compute; discriminate).
  destruct (transferOwnership_is_unchecked mock Scenario.contract_address
              (Scenario.at_time Scenario.deployer 1010) Scenario.fresh 0 H1)
    as (Hr & _ & Hforever).
  split; [exact H1 |]. split; [exact H2 |]. split; [exact Hr |].
  refine (proj2 (Hforever eq_refl Scenario.takeover_attempts
                   (Scenario.at_time Scenario.deployer 2400)
                   (TransferOwnership Scenario.deployer) H2 _ _)).
  - vm_compute; discriminate.
  - reflexivity.
Defined.

(** ** Batches *)

Section Batches.

Variable FHE : Capability.
Variable this : address.

Lemma reachable_execute (tr : list (Env * Call)) (s : State) :
  reachable FHE this s -> oracle_ids_unique FHE this tr s ->
  reachable FHE this (execute FHE this tr s).
Proof.
  revert s. induction tr as [| [env c] tr IH]; intros s Hr Hu; [exact Hr |].
  destruct Hu as [Hfresh Hu]. simpl. apply IH; [| exact Hu].
  now apply reachable_step.
Qed.

Lemma issued_batches_spec (s : State) (b : uint256) :
  In b (issued_batches s) <-> 1 <= b <= currentBatchId s.
Proof.
  unfold issued_batches. rewrite in_map_iff. split.
  - intros (n & <- & Hn). apply in_seq in Hn. lia.
  - intros Hb. exists (N.to_nat b). split; [apply N2Nat.id |].
    apply in_seq. lia.
Qed.

Lemma batches_wellformed_step (env : Env) (c : Call) (s : State) :
  batches_wellformed s ->
  batches_wellformed (storage_after FHE this env c s).
Proof.
  intros [H1 Hclosed]. unfold storage_after.
  destruct c; rewrite_transact; cbv zeta; case_receipt;
    try (split; [exact H1 | exact Hclosed]).
  - (* openNewBatch *)
    split; simpl; [lia |]. intros b Hb. specialize (Hclosed b Hb). lia.
  - (* closeCurrentBatch *)
    split; simpl; [exact H1 |]. intros b. rewrite read_bool_insert.
    destruct (decide _) as [<- |]; [lia | apply Hclosed].
Qed.

Lemma batches_wellformed_reachable (s : State) :
  reachable FHE this s -> batches_wellformed s.
Proof.
  induction 1 as [env | env c s _ IH _].
  - split; [vm_compute; discriminate | intros b Hb; discriminate Hb].
  - now apply batches_wellformed_step.
Qed.

(** C4, as the contract has it. In every reachable state the batch counter
    is at least 1, every closed batch has an issued id, and at most one batch
    accepts submissions: a submission of either kind goes through only for
    the batch whose id is [currentBatchId], the highest id issued, and only
    while that batch is not closed. ([openNewBatch] moves the counter on
    without closing the batch it leaves.) *)
Theorem only_current_batch_accepts (s : State) :
  reachable FHE this s ->
  1 <= currentBatchId s /\
  (forall b, read_bool (isBatchClosed s) b = true -> In b (issued_batches s)) /\
  (forall b, accepts_submissions s b = true ->
     b = currentBatchId s /\ In b (open_batches s) /\
     forall b', In b' (issued_batches s) -> b' <= b) /\
  (forall env k b a h s' logs,
     transact FHE this env (submit k b a h) s = Success s' logs ->
     accepts_submissions s b = true /\
     currentBatchId s' = currentBatchId s /\
     isBatchClosed s' = isBatchClosed s).
Proof.
  intros Hr. destruct (batches_wellformed_reachable s Hr) as [H1 Hclosed].
  split; [exact H1 |]. split.
  { intros b Hb. apply issued_batches_spec. now apply Hclosed. }
  split.
  - intros b Hacc. unfold accepts_submissions in Hacc.
    apply andb_prop in Hacc as [Hcur Hopen].
    apply N.eqb_eq in Hcur. subst b. split; [reflexivity |]. split.
    + unfold open_batches. apply filter_In. split; [| exact Hopen].
      apply issued_batches_spec. lia.
    + intros b' Hb'. apply issued_batches_spec in Hb'. lia.
  - intros env k b a h s' logs Hok. rewrite transact_submit in Hok.
    destruct (submit_guard FHE env b h s) eqn:Hg; [discriminate |].
    destruct (submit_guard_passed FHE env b h s Hg) as (_ & _ & _ & Hb & Hopen & _).
    injection Hok as <- _. split.
    + unfold accepts_submissions. rewrite Hopen. subst b. now rewrite N.eqb_refl.
    + destruct k; split; reflexivity.
Qed.

End Batches.

Lemma only_current_batch_accepts_witness :
  reachable mock Scenario.contract_address Scenario.two_open /\
  currentBatchId Scenario.two_open = 2 /\
  (forall b, accepts_submissions Scenario.two_open b = true -> b = 2).
Proof.
  assert (Hr : reachable mock Scenario.contract_address Scenario.two_open).
  { unfold Scenario.two_open, Scenario.submitted, Scenario.run.
    apply reachable_execute; [apply reachable_execute |].
    - apply reachable_deployed.
    - vm_compute. tauto.
    - vm_compute. tauto. }
  split; [exact Hr |]. split; [vm_compute; reflexivity |].
  intros b Hb.
  destruct (only_current_batch_accepts mock Scenario.contract_address
              Scenario.two_open Hr) as (_ & _ & Hacc & _).
  destruct (Hacc b Hb) as [-> _]. vm_compute. reflexivity.
Defined.

(** C4 as the specification words it fails on the mock run: after
    [openNewBatch] on a batch 1 that was never closed, batches 1 and 2 are
    both issued and both not closed. *)
Lemma two_batches_open_at_once :
  reachable mock Scenario.contract_address Scenario.two_open /\
  issued_batches Scenario.two_open = [1; 2] /\
  open_batches Scenario.two_open = [1; 2] /\
  ~ (length (open_batches Scenario.two_open) <= 1)%nat.
Proof.
  split.
  { unfold Scenario.two_open, Scenario.submitted, Scenario.run.
    apply reachable_execute; [apply reachable_execute |].
    - apply reachable_deployed.
    - vm_compute. tauto.
    - vm_compute. tauto. }
  assert (H : open_batches Scenario.two_open = [1; 2]) by (vm_compute; reflexivity).
  split; [vm_compute; reflexivity |]. split; [exact H |].
  rewrite H. simpl. lia.
Qed.

(** ** What the decryption path reads *)

Section OtherAssets.

Variable FHE : Capability.
Variable this : address.

Lemma collect_cts_same_slots (s1 s2 : State) (batch : uint256) :
  same_slots batch s1 s2 ->
  collect_cts FHE s1 batch assets = collect_cts FHE s2 batch assets.
Proof.
  intros Hs. rewrite !collect_cts_assets.
  destruct (Hs 0x1111111111111111111111111111111111111111) as [-> ->];
    [left; reflexivity |].
  destruct (Hs 0x2222222222222222222222222222222222222222) as [-> ->];
    [right; left; reflexivity |].
  reflexivity.
Qed.

(** C9. The decryption path reads, of all submissions, only the amount and
    hedge handles of the two listed assets. Two storages that agree outside
    the submission mappings and on those four slots of a batch give the same
    receipt to a decryption request for that batch (same error, or same
    [DecryptionRequested] log with the same [stateHash] and the same stored
    context) and to every callback whose context is for that batch (same
    error, or same [DecryptionCompleted] log); neither transaction writes a
    submission. What is stored for any other asset has no influence. *)
Theorem decryption_ignores_other_assets (env : Env) (batch : uint256)
    (s1 s2 : State) :
  same_outside_submissions s1 s2 ->
  same_slots batch s1 s2 ->
  same_receipt (transact FHE this env (RequestBatchDecryption batch) s1)
               (transact FHE this env (RequestBatchDecryption batch) s2) /\
  (forall requestId cleartexts proof,
     batchId (read_context (decryptionContexts s1) requestId) = batch ->
     same_receipt (transact FHE this env (MyCallback requestId cleartexts proof) s1)
                  (transact FHE this env (MyCallback requestId cleartexts proof) s2)) /\
  (forall c s,
     (exists b, c = RequestBatchDecryption b) \/ (exists r ct p, c = MyCallback r ct p) ->
     encryptedAssetAmounts (storage_after FHE this env c s) = encryptedAssetAmounts s /\
     encryptedHedgeAmounts (storage_after FHE this env c s) = encryptedHedgeAmounts s).
Proof.
  intros (Ho & Hprov & Hp & Hcd & Hls & Hld & Hcur & Hcl & Hctx) Hslots.
  split; [| split].
  - rewrite !transact_requestBatchDecryption. unfold request_guard.
    rewrite (collect_cts_same_slots s1 s2 batch Hslots).
    rewrite Ho, Hp, Hcd, Hld, Hcl, Hctx.
    case_receipt; cbv zeta; simpl; try reflexivity.
    split; [reflexivity |]. unfold same_outside_submissions. simpl.
    repeat split; congruence.
  - intros requestId cleartexts proof Hb.
    rewrite !transact_myCallback. cbv zeta. unfold recomputed_hash.
    rewrite <- Hctx, Hb.
    rewrite (collect_cts_same_slots s1 s2 batch Hslots).
    case_receipt; simpl; try reflexivity.
    split; [reflexivity |]. unfold same_outside_submissions, finalized. simpl.
    rewrite <- Hctx. repeat split; congruence.
  - intros c s [[b ->] | (r & ct & p & ->)]; unfold storage_after;
      rewrite_transact; cbv zeta; case_receipt; split; reflexivity.
Qed.

End OtherAssets.

Lemma decryption_ignores_other_assets_witness :
  same_outside_submissions Scenario.closed Scenario.closed_with_third /\
  same_slots 1 Scenario.closed Scenario.closed_with_third /\
  read_handle (encryptedAssetAmounts Scenario.closed) 1 Scenario.asset3 <>
    read_handle (encryptedAssetAmounts Scenario.closed_with_third) 1 Scenario.asset3 /\
  same_receipt
    (transact mock Scenario.contract_address (Scenario.at_time Scenario.deployer 1500)
       (RequestBatchDecryption 1) Scenario.closed)
    (transact mock Scenario.contract_address (Scenario.at_time Scenario.deployer 1500)
       (RequestBatchDecryption 1) Scenario.closed_with_third).
Proof.
  assert (H1 : same_outside_submissions Scenario.closed Scenario.closed_with_third)
    by (unfold Scenario.closed_with_third; repeat split; reflexivity).
  assert (H2 : same_slots 1 Scenario.closed Scenario.closed_with_third).
  { intros a [<- | [<- | []]]; split; vm_compute; reflexivity. }
  split; [exact H1 |]. split; [exact H2 |].
  split; [vm_compute; discriminate |].
  exact (proj1 (decryption_ignores_other_assets mock Scenario.contract_address
                  (Scenario.at_time Scenario.deployer 1500) 1
                  Scenario.closed Scenario.closed_with_third H1 H2)).
Defined.

(** * Further properties of the contract *)

(** ** Roles *)

Section Roles.

Variable FHE : Capability.
Variable this : address.

(** X1. A transaction that succeeded had the role its function asks for: an
    [onlyOwner] function was called by the owner, a submission by an address
    that is a provider. *)
Theorem success_needs_the_role (env : Env) (c : Call) (s s' : State)
    (logs : list Event.t) :
  transact FHE this env c s = Success s' logs ->
  (owner_only c = true -> msg_sender env = owner s) /\
  (forall k b a h, c = submit k b a h ->
     read_bool (isProvider s) (msg_sender env) = true).
Proof.
  intros Hok. split.
  - intros Hc. destruct (N.eq_dec (msg_sender env) (owner s)) as [E | NE]; [exact E |].
    rewrite (owner_only_reverts FHE this env c s Hc NE) in Hok. discriminate.
  - intros k b a h ->. rewrite transact_submit in Hok.
    destruct (submit_guard FHE env b h s) eqn:Hg; [discriminate |].
    now destruct (submit_guard_passed FHE env b h s Hg) as (Hprov & _).
Qed.

(** X2. [addProvider] and [removeProvider], called by the owner, switch the
    membership of exactly the address they name, paused or not: after adding
    [p] it is a provider, after removing it again it is not, every other
    address is as it was, and a submission sent by the removed address reverts
    with [NotProvider]. *)
Theorem provider_membership_follows_add_and_remove (env : Env) (p : address)
    (s : State) :
  msg_sender env = owner s ->
  let s1 := storage_after FHE this env (AddProvider p) s in
  let s2 := storage_after FHE this env (RemoveProvider p) s1 in
  read_bool (isProvider s1) p = true /\
  read_bool (isProvider s2) p = false /\
  (forall q, q <> p ->
     read_bool (isProvider s1) q = read_bool (isProvider s) q /\
     read_bool (isProvider s2) q = read_bool (isProvider s) q) /\
  (forall env' k b a h,
     msg_sender env' = p ->
     transact FHE this env' (submit k b a h) s2 = Reverted NotProvider).
Proof.
  intros Ho s1 s2.
  assert (E1 : s1 = set_isProvider (<[p := true]> (isProvider s)) s).
  { subst s1. unfold storage_after.
    now rewrite transact_addProvider, Ho, N.eqb_refl. }
  assert (E2 : s2 = set_isProvider (<[p := false]> (isProvider s1)) s1).
  { subst s2. unfold storage_after. rewrite transact_removeProvider.
    replace (owner s1) with (owner s) by (now rewrite E1).
    now rewrite Ho, N.eqb_refl. }
  assert (R1 : read_bool (isProvider s1) p = true).
  { rewrite E1. simpl. rewrite read_bool_insert. now destruct (decide _). }
  assert (R2 : read_bool (isProvider s2) p = false).
  { rewrite E2. simpl. rewrite read_bool_insert. now destruct (decide _). }
  split; [exact R1 |]. split; [exact R2 |]. split.
  - intros q Hq.
    assert (Q1 : read_bool (isProvider s1) q = read_bool (isProvider s) q).
    { rewrite E1. simpl. rewrite read_bool_insert.
      destruct (decide _); [congruence | reflexivity]. }
    split; [exact Q1 |]. rewrite E2. simpl. rewrite read_bool_insert.
    destruct (decide _); [congruence | exact Q1].
  - intros env' k b a h Hp. rewrite transact_submit. unfold submit_guard.
    now rewrite Hp, R2.
Qed.

End Roles.

Lemma success_needs_the_role_witness :
  transact mock Scenario.contract_address (Scenario.at_time Scenario.provider 1100)
    (submit Amount 1 Scenario.asset1 501) Scenario.provider_added =
    Success (Scenario.run (firstn 2 Scenario.submissions) Scenario.fresh)
      [Event.AssetSubmitted 1 Scenario.provider Scenario.asset1 501] /\
  read_bool (isProvider Scenario.provider_added) Scenario.provider = true.
Proof.
  assert (H : transact mock Scenario.contract_address
                (Scenario.at_time Scenario.provider 1100)
                (submit Amount 1 Scenario.asset1 501) Scenario.provider_added =
              Success (Scenario.run (firstn 2 Scenario.submissions) Scenario.fresh)
                [Event.AssetSubmitted 1 Scenario.provider Scenario.asset1 501])
    by (vm_compute; reflexivity).
  split; [exact H |].
  exact (proj2 (success_needs_the_role mock Scenario.contract_address _ _ _ _ _ H)
           Amount 1 Scenario.asset1 501 eq_refl).
Defined.

Lemma provider_membership_follows_add_and_remove_witness :
  msg_sender (Scenario.at_time Scenario.deployer 1010) = owner Scenario.fresh /\
  read_bool
    (isProvider
       (storage_after mock Scenario.contract_address
          (Scenario.at_time Scenario.deployer 1010) (AddProvider Scenario.provider)
          Scenario.fresh)) Scenario.provider = true.
Proof.
  assert (H : msg_sender (Scenario.at_time Scenario.deployer 1010) =
              owner Scenario.fresh) by (vm_compute; reflexivity).
  split; [exact H |].
  exact (proj1 (provider_membership_follows_add_and_remove mock
                  Scenario.contract_address
                  (Scenario.at_time Scenario.deployer 1010) Scenario.provider
                  Scenario.fresh H)).
Defined.

(** ** Which function writes which storage *)

Ltac same_field :=
  let H := fresh in intros H; exfalso; apply H; (reflexivity || congruence).

Section Footprint.

Variable FHE : Capability.
Variable this : address.

(** X3. The settings change only through their own setter, called by the
    owner: [owner] only through [transferOwnership], [paused] only through
    [setPaused], [cooldownSeconds] only through [setCooldownSeconds], the
    provider set only through [addProvider] and [removeProvider]. No other
    function, and no call by anyone else, moves any of them. *)
Theorem settings_change_only_through_their_setter (env : Env) (c : Call)
    (s : State) :
  let s' := storage_after FHE this env c s in
  (owner s' <> owner s ->
     c = TransferOwnership (owner s') /\ msg_sender env = owner s) /\
  (paused s' <> paused s ->
     c = SetPaused (paused s') /\ msg_sender env = owner s) /\
  (cooldownSeconds s' <> cooldownSeconds s ->
     c = SetCooldownSeconds (cooldownSeconds s') /\ msg_sender env = owner s) /\
  (isProvider s' <> isProvider s ->
     (exists p, c = AddProvider p \/ c = RemoveProvider p) /\
     msg_sender env = owner s).
Proof.
  intros s'. subst s'. unfold storage_after.
  destruct c; rewrite_transact; cbv zeta; case_receipt; simpl;
    repeat apply conj; try same_field; intros _;
    (split; [| now apply N.eqb_eq]); try reflexivity.
  - exists provider. now left.
  - exists provider. now right.
Qed.

(** X4. The ledger and the decryption records change only through the
    function that owns them: the batch counter only through [openNewBatch]
    (by one), the closed flags only through [closeCurrentBatch] (for the
    current batch), the amount and hedge handles only through the matching
    submit function and only for the current batch, the decryption contexts
    only through [requestBatchDecryption] and [myCallback], and the two
    cooldown timestamps only through a submission and a request. *)
Theorem ledger_changes_only_through_its_function (env : Env) (c : Call)
    (s : State) :
  let s' := storage_after FHE this env c s in
  (currentBatchId s' <> currentBatchId s ->
     c = OpenNewBatch /\ currentBatchId s' = currentBatchId s + 1) /\
  (isBatchClosed s' <> isBatchClosed s ->
     c = CloseCurrentBatch /\
     isBatchClosed s' = <[currentBatchId s := true]> (isBatchClosed s)) /\
  (encryptedAssetAmounts s' <> encryptedAssetAmounts s ->
     exists a h, c = SubmitEncryptedAssetAmount (currentBatchId s) a h) /\
  (encryptedHedgeAmounts s' <> encryptedHedgeAmounts s ->
     exists a h, c = SubmitEncryptedHedgeAmount (currentBatchId s) a h) /\
  (decryptionContexts s' <> decryptionContexts s ->
     (exists b, c = RequestBatchDecryption b) \/
     (exists r ct p, c = MyCallback r ct p)) /\
  (lastSubmissionTime s' <> lastSubmissionTime s ->
     exists k b a h, c = submit k b a h) /\
  (lastDecryptionRequestTime s' <> lastDecryptionRequestTime s ->
     exists b, c = RequestBatchDecryption b).
Proof.
  intros s'. subst s'. unfold storage_after.
  destruct c; rewrite_transact; cbv zeta; case_receipt; simpl;
    repeat apply conj; try same_field; intros _.
  - split; reflexivity.
  - split; reflexivity.
  - match goal with H : submit_guard _ _ _ _ _ = None |- _ =>
      destruct (submit_guard_passed _ _ _ _ _ H) as (_ & _ & _ & -> & _) end.
    eexists; eexists; reflexivity.
  - exists Amount. eexists; eexists; eexists; reflexivity.
  - match goal with H : submit_guard _ _ _ _ _ = None |- _ =>
      destruct (submit_guard_passed _ _ _ _ _ H) as (_ & _ & _ & -> & _) end.
    eexists; eexists; reflexivity.
  - exists Hedge. eexists; eexists; eexists; reflexivity.
  - left. eexists; reflexivity.
  - eexists; reflexivity.
  - right. eexists; eexists; eexists; reflexivity.
Qed.

End Footprint.

(** ** The life of a batch *)

Section BatchLife.

Variable FHE : Capability.
Variable this : address.

Lemma batches_step_forward (env : Env) (c : Call) (s : State) :
  currentBatchId s <= currentBatchId (storage_after FHE this env c s) /\
  (forall b, read_bool (isBatchClosed s) b = true ->
     read_bool (isBatchClosed (storage_after FHE this env c s)) b = true).
Proof.
  unfold storage_after.
  destruct c; rewrite_transact; cbv zeta; case_receipt; simpl;
    (split; [lia |]); intros b Hb; try exact Hb.
  rewrite read_bool_insert. destruct (decide _); [reflexivity | exact Hb].
Qed.

(** X5. Over every run of transactions the batch counter never goes down and
    a batch that is closed stays closed: no function reopens a batch or
    reuses a batch id. *)
Theorem batches_only_move_forward (tr : list (Env * Call)) (s : State) :
  currentBatchId s <= currentBatchId (execute FHE this tr s) /\
  (forall b, read_bool (isBatchClosed s) b = true ->
     read_bool (isBatchClosed (execute FHE this tr s)) b = true).
Proof.
  revert s. induction tr as [| [env c] tr IH]; intros s.
  - simpl. split; [lia | auto].
  - destruct (batches_step_forward env c s) as [H1 H2].
    destruct (IH (storage_after FHE this env c s)) as [H3 H4].
    simpl. split; [lia |]. intros b Hb. apply H4, H2, Hb.
Qed.

Lemma closed_batch_step (env : Env) (c : Call) (s : State) (b : uint256) :
  read_bool (isBatchClosed s) b = true ->
  forall k a,
    stored_handle k (storage_after FHE this env c s) b a = stored_handle k s b a.
Proof.
  intros Hb k a. unfold storage_after.
  destruct c; rewrite_transact; cbv zeta; case_receipt; try reflexivity;
    match goal with H : submit_guard _ _ _ _ _ = None |- _ =>
      destruct (submit_guard_passed _ _ _ _ _ H) as (_ & _ & _ & _ & Hopen & _) end;
    destruct k; simpl; try reflexivity;
    rewrite read_handle_insert; destruct (decide _) as [E |]; try reflexivity;
    injection E as -> _; congruence.
Qed.

(** X6. Once a batch is closed its submissions are frozen: after every run of
    transactions each amount and hedge handle of that batch is the one that
    was stored when the run began, so the snapshot a decryption request
    takes of a closed batch, and its hash, never change. *)
Theorem closed_batch_is_frozen (tr : list (Env * Call)) (s : State)
    (b : uint256) :
  read_bool (isBatchClosed s) b = true ->
  let s' := execute FHE this tr s in
  (forall k a, stored_handle k s' b a = stored_handle k s b a) /\
  collect_cts FHE s' b assets = collect_cts FHE s b assets /\
  _hashCiphertexts FHE this (collect_cts FHE s' b assets) =
    _hashCiphertexts FHE this (collect_cts FHE s b assets).
Proof.
  intros Hb s'.
  assert (Hh : forall k a, stored_handle k s' b a = stored_handle k s b a).
  { subst s'. revert s Hb. induction tr as [| [env c] tr IH]; intros s Hb k a;
      [reflexivity |].
    simpl. rewrite IH.
    - now apply closed_batch_step.
    - now apply batches_step_forward. }
  assert (Hc : collect_cts FHE s' b assets = collect_cts FHE s b assets).
  { apply collect_cts_same_slots. intros a _. split.
    - exact (Hh Amount a).
    - exact (Hh Hedge a). }
  split; [exact Hh |]. split; [exact Hc | now rewrite Hc].
Qed.

Lemma stranded_step (env : Env) (c : Call) (s : State) (b : uint256) :
  b < currentBatchId s -> read_bool (isBatchClosed s) b = false ->
  read_bool (isBatchClosed (storage_after FHE this env c s)) b = false.
Proof.
  intros Hlt Hb. unfold storage_after.
  destruct c; rewrite_transact; cbv zeta; case_receipt; simpl; try exact Hb.
  rewrite read_bool_insert. destruct (decide _); [lia | exact Hb].
Qed.

(** X7. A batch that was left open when [openNewBatch] moved on is stranded:
    whatever is called afterwards it is never closed, so every decryption
    request for it reverts and no submission to it succeeds; what was
    submitted to it can never be decrypted. *)
Theorem batch_left_open_is_stranded (tr : list (Env * Call)) (s : State)
    (b : uint256) :
  b < currentBatchId s ->
  read_bool (isBatchClosed s) b = false ->
  let s' := execute FHE this tr s in
  read_bool (isBatchClosed s') b = false /\
  (forall env, exists e,
     transact FHE this env (RequestBatchDecryption b) s' = Reverted e) /\
  (forall env k a h, exists e,
     transact FHE this env (submit k b a h) s' = Reverted e).
Proof.
  intros Hlt Hb s'.
  assert (H : b < currentBatchId s' /\ read_bool (isBatchClosed s') b = false).
  { subst s'. revert s Hlt Hb. induction tr as [| [env c] tr IH]; intros s Hlt Hb;
      [now split |].
    simpl. apply IH.
    - destruct (batches_step_forward env c s) as [Hle _]. lia.
    - now apply stranded_step. }
  destruct H as [Hlt' Hb']. split; [exact Hb' |]. split.
  - intros env. rewrite transact_requestBatchDecryption. unfold request_guard.
    rewrite Hb'. cbn [negb]. case_receipt; eexists; reflexivity.
  - intros env k a h. rewrite transact_submit. unfold submit_guard.
    destruct (N.eqb_spec b (currentBatchId s')) as [E | _]; [lia |]. cbn [negb].
    case_receipt; eexists; reflexivity.
Qed.

(** X8. [closeCurrentBatch] can be repeated: on a batch that is closed
    already it succeeds again, logs [BatchClosed] again and leaves storage
    exactly as it was. With the current batch closed no submission succeeds
    for any batch id until the owner opens a new batch. *)
Theorem closing_twice_changes_nothing (env : Env) (s : State) :
  msg_sender env = owner s ->
  paused s = false ->
  read_bool (isBatchClosed s) (currentBatchId s) = true ->
  transact FHE this env CloseCurrentBatch s =
    Success s [Event.BatchClosed (currentBatchId s)] /\
  (forall env' k b a h, exists e,
     transact FHE this env' (submit k b a h) s = Reverted e).
Proof.
  intros Ho Hp Hr.
  assert (Hc : isBatchClosed s !! currentBatchId s = Some true).
  { unfold read_bool in Hr.
    destruct (isBatchClosed s !! currentBatchId s) as [[|] |];
      simpl in Hr; try discriminate; reflexivity. }
  split.
  - rewrite transact_closeCurrentBatch, Ho, N.eqb_refl, Hp.
    rewrite (insert_id _ _ _ Hc). now destruct s.
  - intros env' k b a h. rewrite transact_submit. unfold submit_guard.
    destruct (N.eqb_spec b (currentBatchId s)) as [-> | _]; cbn [negb].
    + unfold read_bool at 2. rewrite Hc. simpl.
      case_receipt; eexists; reflexivity.
    + case_receipt; eexists; reflexivity.
Qed.

(** X9. In a reachable state [openNewBatch], called by the owner while not
    paused and below the top of [uint256], always gives a batch that accepts
    submissions: the new id is one more than the old, it was never closed,
    and a provider whose cooldown has elapsed can submit an initialized
    handle to it. At the top of [uint256] the call reverts with the overflow
    panic instead of wrapping around to batch 0. *)
Theorem new_batch_accepts_submissions (env : Env) (s : State) :
  reachable FHE this s ->
  msg_sender env = owner s ->
  paused s = false ->
  let s' := storage_after FHE this env OpenNewBatch s in
  (currentBatchId s + 1 < uint256_limit ->
     currentBatchId s' = currentBatchId s + 1 /\
     accepts_submissions s' (currentBatchId s') = true /\
     logs_of FHE this env OpenNewBatch s = [Event.BatchOpened (currentBatchId s + 1)]) /\
  (uint256_limit <= currentBatchId s + 1 ->
     transact FHE this env OpenNewBatch s = Reverted (Panic 0x11) /\ s' = s).
Proof.
  intros Hr Ho Hp s'. subst s'. unfold storage_after, logs_of.
  rewrite transact_openNewBatch, Ho, N.eqb_refl, Hp.
  destruct (batches_wellformed_reachable FHE this s Hr) as [_ Hclosed].
  destruct (N.ltb_spec (currentBatchId s + 1) uint256_limit) as [Hlt | Hge].
  - split; [| lia]. intros _. simpl. split; [reflexivity |]. split; [| reflexivity].
    unfold accepts_submissions. simpl. rewrite N.eqb_refl. simpl.
    destruct (read_bool (isBatchClosed s) (currentBatchId s + 1)) eqn:E;
      [| reflexivity].
    specialize (Hclosed _ E). lia.
  - split; [lia |]. intros _. split; reflexivity.
Qed.

End BatchLife.

Lemma scenario_closed_reachable :
  reachable mock Scenario.contract_address Scenario.closed.
Proof.
  unfold Scenario.closed, Scenario.submitted, Scenario.run.
  apply reachable_execute; [apply reachable_execute |].
  - apply reachable_deployed.
  - vm_compute. tauto.
  - vm_compute. tauto.
Qed.

Lemma scenario_requested_reachable :
  reachable mock Scenario.contract_address Scenario.requested.
Proof.
  unfold Scenario.requested, Scenario.run.
  apply reachable_execute; [apply scenario_closed_reachable |].
  vm_compute. tauto.
Qed.

Lemma closed_batch_is_frozen_witness :
  read_bool (isBatchClosed Scenario.closed) 1 = true /\
  stored_handle Amount
    (execute mock Scenario.contract_address Scenario.after_closing Scenario.closed)
    1 Scenario.asset1 =
  stored_handle Amount Scenario.closed 1 Scenario.asset1.
Proof.
  assert (H : read_bool (isBatchClosed Scenario.closed) 1 = true)
    by (vm_compute; reflexivity).
  split; [exact H |].
  exact (proj1 (closed_batch_is_frozen mock Scenario.contract_address
                  Scenario.after_closing Scenario.closed 1 H)
           Amount Scenario.asset1).
Defined.

Lemma batch_left_open_is_stranded_witness :
  1 < currentBatchId Scenario.two_open /\
  read_bool (isBatchClosed Scenario.two_open) 1 = false /\
  read_bool
    (isBatchClosed
       (execute mock Scenario.contract_address
          [(Scenario.at_time Scenario.deployer 1500, CloseCurrentBatch)]
          Scenario.two_open)) 1 = false.
Proof.
  assert (H1 : 1 < currentBatchId Scenario.two_open) by (vm_compute; reflexivity).
  assert (H2 : read_bool (isBatchClosed Scenario.two_open) 1 = false)
    by (vm_compute; reflexivity).
  split; [exact H1 |]. split; [exact H2 |].
  exact (proj1 (batch_left_open_is_stranded mock Scenario.contract_address
                  [(Scenario.at_time Scenario.deployer 1500, CloseCurrentBatch)]
                  Scenario.two_open 1 H1 H2)).
Defined.

Lemma closing_twice_changes_nothing_witness :
  msg_sender (Scenario.at_time Scenario.deployer 1450) = owner Scenario.closed /\
  paused Scenario.closed = false /\
  read_bool (isBatchClosed Scenario.closed) (currentBatchId Scenario.closed) = true /\
  transact mock Scenario.contract_address (Scenario.at_time Scenario.deployer 1450)
    CloseCurrentBatch Scenario.closed =
    Success Scenario.closed [Event.BatchClosed (currentBatchId Scenario.closed)].
Proof.
  assert (H1 : msg_sender (Scenario.at_time Scenario.deployer 1450) =
               owner Scenario.closed) by (vm_compute; reflexivity).
  assert (H2 : paused Scenario.closed = false) by (vm_compute; reflexivity).
  assert (H3 : read_bool (isBatchClosed Scenario.closed)
                 (currentBatchId Scenario.closed) = true)
    by (vm_compute; reflexivity).
  split; [exact H1 |]. split; [exact H2 |]. split; [exact H3 |].
  exact (proj1 (closing_twice_changes_nothing mock Scenario.contract_address
                  (Scenario.at_time Scenario.deployer 1450) Scenario.closed
                  H1 H2 H3)).
Defined.

Lemma new_batch_accepts_submissions_witness :
  reachable mock Scenario.contract_address Scenario.closed /\
  msg_sender (Scenario.at_time Scenario.deployer 1450) = owner Scenario.closed /\
  paused Scenario.closed = false /\
  currentBatchId Scenario.closed + 1 < uint256_limit /\
  currentBatchId
    (storage_after mock Scenario.contract_address
       (Scenario.at_time Scenario.deployer 1450) OpenNewBatch Scenario.closed) =
  currentBatchId Scenario.closed + 1.
Proof.
  assert (H1 : msg_sender (Scenario.at_time Scenario.deployer 1450) =
               owner Scenario.closed) by (vm_compute; reflexivity).
  assert (H2 : paused Scenario.closed = false) by (vm_compute; reflexivity).
  assert (H3 : currentBatchId Scenario.closed + 1 < uint256_limit)
    by (vm_compute; reflexivity).
  split; [exact scenario_closed_reachable |].
  split; [exact H1 |]. split; [exact H2 |]. split; [exact H3 |].
  exact (proj1 (proj1 (new_batch_accepts_submissions mock Scenario.contract_address
                         (Scenario.at_time Scenario.deployer 1450) Scenario.closed
                         scenario_closed_reachable H1 H2) H3)).
Defined.

(** ** Decoding, at its bounds *)

Lemma decode_word_at_spec (bs : list byte) (i : uint256) (s : State) :
  i + 32 < uint256_limit ->
  decode_word_at bs i s =
  if N.of_nat (length bs) <? i + 32 then inl SliceOutOfBounds
  else inr (word_at bs (N.to_nat i), s, []).
Proof.
  intros Hi. unfold decode_word_at, checked_add, bind, revert, ret, word_at.
  destruct (N.ltb_spec (i + 32) uint256_limit) as [_ | ?]; [| lia].
  now destruct (N.of_nat (length bs) <? i + 32).
Qed.

Lemma decode_result_spec (cleartexts : list byte) :
  decode_result (length assets) cleartexts 0 =
  if (length cleartexts <? 128)%nat then inl SliceOutOfBounds
  else inr ([word_at cleartexts 0; word_at cleartexts 64],
            [word_at cleartexts 32; word_at cleartexts 96]).
Proof.
  unfold decode_result. change (length assets) with 2%nat.
  unfold decode_cleartexts, bind.
  rewrite (decode_word_at_spec cleartexts 0 zero_state) by reflexivity.
  change (0 + 32) with 32.
  destruct (Nat.ltb_spec (length cleartexts) 128) as [Hshort | Hlong];
    (destruct (N.ltb_spec (N.of_nat (length cleartexts)) 32);
       [reflexivity || lia |]);
    unfold checked_add at 1; change (0 + 32) with 32;
    change (32 <? uint256_limit) with true; unfold ret at 1;
    rewrite (decode_word_at_spec cleartexts 32 zero_state) by reflexivity;
    change (32 + 32) with 64;
    (destruct (N.ltb_spec (N.of_nat (length cleartexts)) 64);
       [reflexivity || lia |]);
    unfold checked_add at 1; change (32 + 32) with 64;
    change (64 <? uint256_limit) with true; unfold ret at 1;
    rewrite (decode_word_at_spec cleartexts 64 zero_state) by reflexivity;
    change (64 + 32) with 96;
    (destruct (N.ltb_spec (N.of_nat (length cleartexts)) 96);
       [reflexivity || lia |]);
    unfold checked_add at 1; change (64 + 32) with 96;
    change (96 <? uint256_limit) with true; unfold ret at 1;
    rewrite (decode_word_at_spec cleartexts 96 zero_state) by reflexivity;
    change (96 + 32) with 128;
    (destruct (N.ltb_spec (N.of_nat (length cleartexts)) 128);
       [reflexivity || lia |]);
    unfold checked_add at 1; change (96 + 32) with 128;
    change (128 <? uint256_limit) with true;
    first [reflexivity | lia].
Qed.

(** X10. The decoding loop of [myCallback] needs four 32-byte words: on fewer
    than 128 bytes of cleartexts it reverts (the slice runs past the array),
    on 128 bytes or more it returns words 0 and 2 as the amounts and words 1
    and 3 as the hedges and does not look at what follows. So a callback
    that carries fewer than 128 bytes never finalizes anything: it reverts,
    whatever the request, the proof and the storage. *)
Theorem decode_needs_four_words (cleartexts : list byte) :
  decode_result (length assets) cleartexts 0 =
    (if (length cleartexts <? 128)%nat then inl SliceOutOfBounds
     else inr ([word_at cleartexts 0; word_at cleartexts 64],
               [word_at cleartexts 32; word_at cleartexts 96])) /\
  (forall FHE this env requestId proof s,
     (length cleartexts < 128)%nat ->
     exists e,
       transact FHE this env (MyCallback requestId cleartexts proof) s = Reverted e).
Proof.
  split; [apply decode_result_spec |].
  intros FHE this env requestId proof s Hshort.
  rewrite transact_myCallback. cbv zeta. rewrite decode_result_spec.
  destruct (Nat.ltb_spec (length cleartexts) 128) as [_ | ?]; [| lia].
  case_receipt; eexists; reflexivity.
Qed.

(** ** Pending requests *)

Section PendingRequests.

Variable FHE : Capability.
Variable this : address.

Lemma contexts_bound_frame (s s' : State) :
  decryptionContexts s' = decryptionContexts s ->
  (forall b, (read_bool (isBatchClosed s) b = true \/ b = 0) ->
     collect_cts FHE s' b assets = collect_cts FHE s b assets) ->
  (forall b, read_bool (isBatchClosed s) b = true ->
     read_bool (isBatchClosed s') b = true) ->
  contexts_bound FHE this s -> contexts_bound FHE this s'.
Proof.
  intros Hctx Hcts Hclosed Hb requestId c Hl. rewrite Hctx in Hl.
  destruct (Hb requestId c Hl) as [Hhash Hwhere]. split.
  - now rewrite (Hcts _ Hwhere).
  - destruct Hwhere as [Hc | Hz]; [left; now apply Hclosed | now right].
Qed.

Lemma contexts_bound_step (env : Env) (c : Call) (s : State) :
  batches_wellformed s ->
  contexts_bound FHE this s ->
  contexts_bound FHE this (storage_after FHE this env c s).
Proof.
  intros [Hone Hissued] Hb. unfold storage_after.
  destruct c; rewrite_transact; cbv zeta; case_receipt; try exact Hb.
  - (* closeCurrentBatch *)
    apply (contexts_bound_frame s); [reflexivity | | | exact Hb].
    + intros b _. now apply collect_cts_reads_submissions.
    + intros b Hc. simpl. rewrite read_bool_insert.
      destruct (decide _); [reflexivity | exact Hc].
  - (* an amount goes to the current batch, which is open and not batch 0 *)
    match goal with H : submit_guard _ _ _ _ _ = None |- _ =>
      destruct (submit_guard_passed _ _ _ _ _ H) as (_ & _ & _ & Hcur & Hopen & _) end.
    apply (contexts_bound_frame s); [reflexivity | | intros b Hc; exact Hc | exact Hb].
    intros b Hwhere. apply collect_cts_same_slots. intros a _. simpl. split;
      [| reflexivity].
    rewrite read_handle_insert. destruct (decide _) as [E |]; [| reflexivity].
    injection E as -> _. destruct Hwhere as [Hc | Hz]; [congruence | lia].
  - (* a hedge, likewise *)
    match goal with H : submit_guard _ _ _ _ _ = None |- _ =>
      destruct (submit_guard_passed _ _ _ _ _ H) as (_ & _ & _ & Hcur & Hopen & _) end.
    apply (contexts_bound_frame s); [reflexivity | | intros b Hc; exact Hc | exact Hb].
    intros b Hwhere. apply collect_cts_same_slots. intros a _. simpl. split;
      [reflexivity |].
    rewrite read_handle_insert. destruct (decide _) as [E |]; [| reflexivity].
    injection E as -> _. destruct Hwhere as [Hc | Hz]; [congruence | lia].
  - (* a request stores the hash of the snapshot it took of a closed batch *)
    match goal with H : request_guard _ _ _ = None |- _ => rename H into Hg end.
    assert (Hclosed : read_bool (isBatchClosed s) batch = true).
    { unfold request_guard in Hg.
      repeat match type of Hg with
             | context [if ?c then _ else _] => destruct c eqn:?; try discriminate
             end.
      now destruct (read_bool (isBatchClosed s) batch). }
    intros requestId c Hl. simpl in Hl. rewrite lookup_insert in Hl.
    destruct (decide _) as [_ | _].
    + injection Hl as <-. simpl. split; [| now left].
      reflexivity.
    + destruct (Hb requestId c Hl) as [Hhash Hwhere]. split; [| exact Hwhere].
      exact Hhash.
  - (* a callback keeps the batch and the hash of the context it finalizes *)
    match goal with H : negb (_ =? _) = false |- _ =>
      apply negb_false_iff, N.eqb_eq in H; rename H into Hhash0 end.
    unfold recomputed_hash in Hhash0.
    intros rid c Hl. unfold finalized in Hl. simpl in Hl. rewrite lookup_insert in Hl.
    destruct (decide _) as [_ | _].
    + injection Hl as <-. simpl. split.
      * symmetry. exact Hhash0.
      * unfold read_context.
        destruct (decryptionContexts s !! requestId) as [c0 |] eqn:E; simpl.
        -- exact (proj2 (Hb requestId c0 E)).
        -- now right.
    + destruct (Hb rid c Hl) as [Hh Hwhere]. split; [| exact Hwhere].
      exact Hh.
Qed.

Lemma contexts_bound_reachable (s : State) :
  reachable FHE this s -> contexts_bound FHE this s.
Proof.
  induction 1 as [env | env c s Hr IH _].
  - intros requestId c Hl. discriminate Hl.
  - apply contexts_bound_step; [| exact IH].
    now apply batches_wellformed_reachable with (FHE := FHE) (this := this).
Qed.

(** X11. In every reachable state every stored decryption context still
    carries the hash of what is stored for its batch: no sequence of calls
    can put the contract in a state where the callback for a stored request
    reverts with [StateMismatch]. *)
Theorem stored_request_never_mismatches (s : State) (requestId : uint256)
    (c : DecryptionContext) :
  reachable FHE this s ->
  decryptionContexts s !! requestId = Some c ->
  recomputed_hash FHE this s requestId = stateHash c /\
  (forall env cleartexts proof,
     transact FHE this env (MyCallback requestId cleartexts proof) s <>
       Reverted StateMismatch).
Proof.
  intros Hr Hl.
  destruct (contexts_bound_reachable s Hr requestId c Hl) as [Hhash _].
  assert (Hrc : read_context (decryptionContexts s) requestId = c)
    by (unfold read_context; now rewrite Hl).
  assert (Heq : recomputed_hash FHE this s requestId = stateHash c)
    by (unfold recomputed_hash; now rewrite Hrc, Hhash).
  split; [exact Heq |].
  intros env cleartexts proof. rewrite transact_myCallback. cbv zeta.
  rewrite Hrc, Heq, N.eqb_refl. cbn [negb]. case_receipt; try discriminate.
  match goal with H : decode_result _ _ _ = inl _ |- _ => rename H into Hd end.
  rewrite decode_result_spec in Hd.
  destruct (length cleartexts <? 128)%nat; [injection Hd as <-|]; discriminate.
Qed.

(** X12. In every reachable state a pending request can be finalized: for a
    stored, unprocessed context, a callback carrying a proof the library
    accepts and at least 128 bytes of cleartexts succeeds, for every caller,
    at every time and whether or not the contract is paused; it marks the
    context processed and logs the four decoded words. *)
Theorem pending_request_can_be_finalized (s : State) (requestId : uint256)
    (c : DecryptionContext) (env : Env) (cleartexts proof : list byte) :
  reachable FHE this s ->
  decryptionContexts s !! requestId = Some c ->
  processed c = false ->
  checkSignatures FHE requestId cleartexts proof = true ->
  (128 <= length cleartexts)%nat ->
  transact FHE this env (MyCallback requestId cleartexts proof) s =
    Success (finalized requestId s)
      [Event.DecryptionCompleted requestId (batchId c)
         [word_at cleartexts 0; word_at cleartexts 64]
         [word_at cleartexts 32; word_at cleartexts 96]] /\
  decryptionContexts (finalized requestId s) !! requestId =
    Some (mkContext (batchId c) (stateHash c) true).
Proof.
  intros Hr Hl Hp Hsig Hlen.
  destruct (contexts_bound_reachable s Hr requestId c Hl) as [Hhash _].
  assert (Hrc : read_context (decryptionContexts s) requestId = c)
    by (unfold read_context; now rewrite Hl).
  split.
  - rewrite transact_myCallback. cbv zeta. unfold recomputed_hash.
    rewrite Hrc, Hp, <- Hhash, N.eqb_refl, Hsig. cbn [negb].
    rewrite decode_result_spec.
    destruct (Nat.ltb_spec (length cleartexts) 128); [lia | reflexivity].
  - unfold finalized. simpl. rewrite Hrc. apply lookup_insert_eq.
Qed.

Lemma handles_initialized_step (env : Env) (c : Call) (s : State) :
  handles_initialized FHE s ->
  handles_initialized FHE (storage_after FHE this env c s).
Proof.
  intros Hi. unfold storage_after.
  destruct c; rewrite_transact; cbv zeta; case_receipt; try exact Hi;
    match goal with H : submit_guard _ _ _ _ _ = None |- _ =>
      destruct (submit_guard_passed _ _ _ _ _ H) as (_ & _ & _ & _ & _ & Hinit) end;
    intros key h [Hl | Hl]; simpl in Hl;
    try (rewrite lookup_insert in Hl; destruct (decide _) as [_ | _];
         [injection Hl as <-; exact Hinit |]);
    apply (Hi key h); auto.
Qed.

(** X13. In every reachable state every stored amount or hedge handle passed
    [FHE.isInitialized]: [_initIfNeeded] (and [_requireInitialized], which
    does the same) lets exactly the initialized handles through and writes
    nothing, a submission of an uninitialized handle reverts, and so none is
    ever stored. *)
Theorem stored_handles_are_initialized (s : State) :
  reachable FHE this s ->
  handles_initialized FHE s /\
  (forall v s0,
     _initIfNeeded FHE v s0 = _requireInitialized FHE v s0 /\
     _initIfNeeded FHE v s0 =
       if isInitialized FHE v then inr (tt, s0, []) else inl NotInitialized) /\
  (forall env k b a h,
     isInitialized FHE h = false ->
     exists e, transact FHE this env (submit k b a h) s = Reverted e /\
               stored_handle k (storage_after FHE this env (submit k b a h) s) b a =
                 stored_handle k s b a).
Proof.
  intros Hr. split; [| split].
  - induction Hr as [env | env c s _ IH _].
    + intros key h [Hl | Hl]; discriminate Hl.
    + now apply handles_initialized_step.
  - intros v s0. split; [reflexivity |].
    unfold _initIfNeeded. now destruct (isInitialized FHE v).
  - intros env k b a h Hh.
    assert (He : exists e, submit_guard FHE env b h s = Some e).
    { unfold submit_guard. rewrite Hh. cbn [negb]. case_receipt; eexists; reflexivity. }
    destruct He as [e He]. exists e.
    assert (Ht : transact FHE this env (submit k b a h) s = Reverted e)
      by (now rewrite transact_submit, He).
    split; [exact Ht |]. unfold storage_after. now rewrite Ht.
Qed.

End PendingRequests.

Lemma scenario_paused_pending_reachable :
  reachable mock Scenario.contract_address Scenario.paused_pending.
Proof.
  unfold Scenario.paused_pending, Scenario.run.
  apply reachable_execute; [apply scenario_requested_reachable |].
  vm_compute. tauto.
Qed.

Lemma stored_request_never_mismatches_witness :
  reachable mock Scenario.contract_address Scenario.requested /\
  decryptionContexts Scenario.requested !! 77 =
    Some (mkContext 1
            (_hashCiphertexts mock Scenario.contract_address [501; 0; 502; 503]) false) /\
  recomputed_hash mock Scenario.contract_address Scenario.requested 77 =
    stateHash
      (mkContext 1
         (_hashCiphertexts mock Scenario.contract_address [501; 0; 502; 503]) false).
Proof.
  assert (H : decryptionContexts Scenario.requested !! 77 =
              Some (mkContext 1
                      (_hashCiphertexts mock Scenario.contract_address
                         [501; 0; 502; 503]) false))
    by (vm_compute; reflexivity).
  split; [exact scenario_requested_reachable |]. split; [exact H |].
  exact (proj1 (stored_request_never_mismatches mock Scenario.contract_address
                  Scenario.requested 77
                  (mkContext 1
                     (_hashCiphertexts mock Scenario.contract_address
                        [501; 0; 502; 503]) false)
                  scenario_requested_reachable H)).
Defined.

Lemma pending_request_can_be_finalized_witness :
  reachable mock Scenario.contract_address Scenario.paused_pending /\
  paused Scenario.paused_pending = true /\
  decryptionContexts Scenario.paused_pending !! 77 =
    Some (mkContext 1
            (_hashCiphertexts mock Scenario.contract_address [501; 0; 502; 503]) false) /\
  checkSignatures mock 77 Scenario.cleartexts Scenario.valid_proof = true /\
  (128 <= length Scenario.cleartexts)%nat /\
  transact mock Scenario.contract_address (Scenario.at_time Scenario.stranger 9000)
    (MyCallback 77 Scenario.cleartexts Scenario.valid_proof) Scenario.paused_pending =
    Success (finalized 77 Scenario.paused_pending)
      [Event.DecryptionCompleted 77 1
         [word_at Scenario.cleartexts 0; word_at Scenario.cleartexts 64]
         [word_at Scenario.cleartexts 32; word_at Scenario.cleartexts 96]].
Proof.
  assert (H1 : decryptionContexts Scenario.paused_pending !! 77 =
               Some (mkContext 1
                       (_hashCiphertexts mock Scenario.contract_address
                          [501; 0; 502; 503]) false))
    by (vm_compute; reflexivity).
  assert (H2 : checkSignatures mock 77 Scenario.cleartexts Scenario.valid_proof = true)
    by (vm_compute; reflexivity).
  assert (H3 : (128 <= length Scenario.cleartexts)%nat)
    by (vm_compute; repeat constructor).
  split; [exact scenario_paused_pending_reachable |].
  split; [vm_compute; reflexivity |].
  split; [exact H1 |]. split; [exact H2 |]. split; [exact H3 |].
  exact (proj1 (pending_request_can_be_finalized mock Scenario.contract_address
                  Scenario.paused_pending 77
                  (mkContext 1
                     (_hashCiphertexts mock Scenario.contract_address
                        [501; 0; 502; 503]) false)
                  (Scenario.at_time Scenario.stranger 9000)
                  Scenario.cleartexts Scenario.valid_proof
                  scenario_paused_pending_reachable H1 eq_refl H2 H3)).
Defined.

Lemma stored_handles_are_initialized_witness :
  reachable mock Scenario.contract_address Scenario.requested /\
  handles_initialized mock Scenario.requested.
Proof.
  split; [exact scenario_requested_reachable |].
  exact (proj1 (stored_handles_are_initialized mock Scenario.contract_address
                  Scenario.requested scenario_requested_reachable)).
Defined.

(** ** Cooldowns, at their bounds *)

Section Cooldowns.

Variable FHE : Capability.
Variable this : address.

Lemma request_guard_passed (env : Env) (batch : uint256) (s : State) :
  request_guard env batch s = None ->
  msg_sender env = owner s /\
  paused s = false /\
  read_uint (lastDecryptionRequestTime s) (msg_sender env) + cooldownSeconds s
    <= block_timestamp env /\
  read_bool (isBatchClosed s) batch = true.
Proof.
  unfold request_guard.
  destruct (N.eqb_spec (msg_sender env) (owner s)); [| discriminate]. cbn [negb].
  destruct (paused s); [discriminate |].
  destruct (N.ltb_spec (read_uint (lastDecryptionRequestTime s) (msg_sender env)
                        + cooldownSeconds s) uint256_limit); [| discriminate].
  destruct (N.ltb_spec (block_timestamp env)
              (read_uint (lastDecryptionRequestTime s) (msg_sender env)
               + cooldownSeconds s)); [discriminate |].
  destruct (read_bool (isBatchClosed s) batch); [| discriminate].
  intros _. repeat split; try reflexivity; assumption.
Qed.

(** X14. The cooldown bound is inclusive and the last write wins: after a
    provider's submission went through at time [t1], a submission by the same
    provider to the same batch at any time from [t1 + cooldownSeconds] on
    (with a cooldown of 0: the very same block) goes through again, stores
    its handle over whatever was in that slot, leaves every other slot of the
    batch as it was and moves the provider's timestamp to the new time. *)
Theorem resubmission_after_cooldown (env1 env2 : Env) (k1 k2 : Kind)
    (b : uint256) (a1 a2 : address) (h1 h2 : euint32)
    (s s1 : State) (logs : list Event.t) :
  transact FHE this env1 (submit k1 b a1 h1) s = Success s1 logs ->
  msg_sender env2 = msg_sender env1 ->
  block_timestamp env1 + cooldownSeconds s <= block_timestamp env2 ->
  block_timestamp env2 < uint256_limit ->
  isInitialized FHE h2 = true ->
  let s2 := storage_after FHE this env2 (submit k2 b a2 h2) s1 in
  (exists ev, transact FHE this env2 (submit k2 b a2 h2) s1 = Success s2 [ev]) /\
  stored_handle k2 s2 b a2 = h2 /\
  (forall k a, (k, a) <> (k2, a2) -> stored_handle k s2 b a = stored_handle k s1 b a) /\
  read_uint (lastSubmissionTime s2) (msg_sender env1) = block_timestamp env2.
Proof.
  intros Hok Hsender Hlate Hfit Hinit s2.
  rewrite transact_submit in Hok.
  destruct (submit_guard FHE env1 b h1 s) eqn:Hg; [discriminate |].
  destruct (submit_guard_passed FHE env1 b h1 s Hg)
    as (Hprov & Hpause & _ & Hcur & Hopen & _).
  injection Hok as Hs1 _.
  assert (Hg2 : submit_guard FHE env2 b h2 s1 = None).
  { unfold submit_guard. rewrite Hsender. subst s1.
    destruct k1; simpl; rewrite Hprov, Hpause, read_uint_insert;
      (destruct (decide _); [| congruence]); cbn [negb];
      (destruct (N.ltb_spec (block_timestamp env1 + cooldownSeconds s) uint256_limit);
         [| lia]);
      (destruct (N.ltb_spec (block_timestamp env2)
                   (block_timestamp env1 + cooldownSeconds s)); [lia |]);
      rewrite <- Hcur, N.eqb_refl, Hopen, Hinit; reflexivity. }
  assert (Ht : transact FHE this env2 (submit k2 b a2 h2) s1 =
               Success s2 [match k2 with
                           | Amount => Event.AssetSubmitted b (msg_sender env2) a2 h2
                           | Hedge => Event.HedgeSubmitted b (msg_sender env2) a2 h2
                           end]).
  { subst s2. unfold storage_after. rewrite transact_submit, Hg2. reflexivity. }
  assert (Es2 : s2 =
    set_lastSubmissionTime
      (<[msg_sender env2 := block_timestamp env2]> (lastSubmissionTime s1))
      match k2 with
      | Amount => set_encryptedAssetAmounts
                    (<[(b, a2) := h2]> (encryptedAssetAmounts s1)) s1
      | Hedge => set_encryptedHedgeAmounts
                   (<[(b, a2) := h2]> (encryptedHedgeAmounts s1)) s1
      end).
  { subst s2. unfold storage_after. rewrite transact_submit, Hg2. reflexivity. }
  split; [eexists; exact Ht |]. rewrite Es2. split; [| split].
  - destruct k2; simpl; rewrite read_handle_insert; destruct (decide _); congruence.
  - intros k a Hne. destruct k, k2; simpl; try reflexivity;
      rewrite read_handle_insert; destruct (decide _) as [E |]; try reflexivity;
      injection E as ->; congruence.
  - simpl. rewrite read_uint_insert, Hsender. destruct (decide _); congruence.
Qed.

(** X15. A cooldown that overflows locks the caller out: when the caller's
    last timestamp plus [cooldownSeconds] does not fit into [uint256], every
    submission by that provider, and likewise every decryption request by the
    owner, reverts with the arithmetic panic at every block time; it is not
    reported as [CooldownActive] and no waiting ends it. *)
Theorem cooldown_overflow_locks_out (env : Env) (s : State) :
  paused s = false ->
  (read_bool (isProvider s) (msg_sender env) = true ->
   uint256_limit <=
     read_uint (lastSubmissionTime s) (msg_sender env) + cooldownSeconds s ->
   forall k b a h,
     transact FHE this env (submit k b a h) s = Reverted (Panic 0x11)) /\
  (msg_sender env = owner s ->
   uint256_limit <=
     read_uint (lastDecryptionRequestTime s) (msg_sender env) + cooldownSeconds s ->
   forall b,
     transact FHE this env (RequestBatchDecryption b) s = Reverted (Panic 0x11)).
Proof.
  intros Hp. split.
  - intros Hprov Hover k b a h. rewrite transact_submit. unfold submit_guard.
    rewrite Hprov, Hp. cbn [negb].
    destruct (N.ltb_spec (read_uint (lastSubmissionTime s) (msg_sender env)
                          + cooldownSeconds s) uint256_limit); [lia | reflexivity].
  - intros Ho Hover b. rewrite transact_requestBatchDecryption. unfold request_guard.
    rewrite Ho, N.eqb_refl, Hp. cbn [negb]. rewrite <- Ho.
    destruct (N.ltb_spec (read_uint (lastDecryptionRequestTime s) (msg_sender env)
                          + cooldownSeconds s) uint256_limit); [lia | reflexivity].
Qed.

(** X16. Decryption requests are rate limited per requester and can be
    pending side by side: after the owner's request went through at time
    [t1], a second request by the same address before [t1 + cooldownSeconds]
    reverts with [CooldownActive]; from [t1 + cooldownSeconds] on a request
    for any closed batch goes through, stores a second unprocessed context
    under the new id and leaves the first context in place. *)
Theorem request_cooldown_and_second_request (env1 env2 : Env)
    (b1 b2 : uint256) (s s1 : State) (logs : list Event.t) :
  transact FHE this env1 (RequestBatchDecryption b1) s = Success s1 logs ->
  msg_sender env2 = msg_sender env1 ->
  block_timestamp env1 + cooldownSeconds s < uint256_limit ->
  (block_timestamp env2 < block_timestamp env1 + cooldownSeconds s ->
   transact FHE this env2 (RequestBatchDecryption b2) s1 = Reverted CooldownActive) /\
  (block_timestamp env1 + cooldownSeconds s <= block_timestamp env2 ->
   read_bool (isBatchClosed s) b2 = true ->
   oracle_requestId env2 <> oracle_requestId env1 ->
   let hash1 := _hashCiphertexts FHE this (collect_cts FHE s b1 assets) in
   let hash2 := _hashCiphertexts FHE this (collect_cts FHE s b2 assets) in
   let s2 := storage_after FHE this env2 (RequestBatchDecryption b2) s1 in
   transact FHE this env2 (RequestBatchDecryption b2) s1 =
     Success s2 [Event.DecryptionRequested (oracle_requestId env2) b2 hash2] /\
   decryptionContexts s2 !! oracle_requestId env2 = Some (mkContext b2 hash2 false) /\
   decryptionContexts s2 !! oracle_requestId env1 = Some (mkContext b1 hash1 false)).
Proof.
  intros Hok Hsender Hfit.
  rewrite transact_requestBatchDecryption in Hok.
  destruct (request_guard env1 b1 s) eqn:Hg; [discriminate |].
  destruct (request_guard_passed env1 b1 s Hg) as (Ho & Hp & _ & Hc1).
  cbv zeta in Hok. injection Hok as Hs1 _.
  assert (Hlast : read_uint (lastDecryptionRequestTime s1) (msg_sender env1) =
                  block_timestamp env1).
  { subst s1. simpl. rewrite read_uint_insert. destruct (decide _); congruence. }
  assert (Hfields : owner s1 = owner s /\ paused s1 = paused s /\
                    cooldownSeconds s1 = cooldownSeconds s /\
                    isBatchClosed s1 = isBatchClosed s)
    by (subst s1; repeat split; reflexivity).
  destruct Hfields as (Eo & Ep & Ecd & Ecl).
  split.
  - intros Hsoon. rewrite transact_requestBatchDecryption. unfold request_guard.
    rewrite Hsender, Eo, Ep, Ecd, Hlast, Ho, N.eqb_refl, Hp. cbn [negb].
    destruct (N.ltb_spec (block_timestamp env1 + cooldownSeconds s) uint256_limit);
      [| lia].
    destruct (N.ltb_spec (block_timestamp env2)
                (block_timestamp env1 + cooldownSeconds s)); [reflexivity | lia].
  - intros Hlate Hc2 Hid hash1 hash2 s2.
    assert (Hg2 : request_guard env2 b2 s1 = None).
    { unfold request_guard.
      rewrite Hsender, Eo, Ep, Ecd, Ecl, Hlast, Ho, N.eqb_refl, Hp, Hc2. cbn [negb].
      destruct (N.ltb_spec (block_timestamp env1 + cooldownSeconds s) uint256_limit);
        [| lia].
      destruct (N.ltb_spec (block_timestamp env2)
                  (block_timestamp env1 + cooldownSeconds s)); [lia | reflexivity]. }
    assert (Hcts : collect_cts FHE s1 b2 assets = collect_cts FHE s b2 assets)
      by (subst s1; reflexivity).
    assert (Ht : transact FHE this env2 (RequestBatchDecryption b2) s1 =
                 Success
                   (set_lastDecryptionRequestTime
                      (<[msg_sender env2 := block_timestamp env2]>
                         (lastDecryptionRequestTime s1))
                      (set_decryptionContexts
                         (<[oracle_requestId env2 := mkContext b2 hash2 false]>
                            (decryptionContexts s1)) s1))
                   [Event.DecryptionRequested (oracle_requestId env2) b2 hash2]).
    { rewrite transact_requestBatchDecryption, Hg2. cbv zeta. rewrite Hcts.
      reflexivity. }
    assert (Es2 : s2 =
                  set_lastDecryptionRequestTime
                    (<[msg_sender env2 := block_timestamp env2]>
                       (lastDecryptionRequestTime s1))
                    (set_decryptionContexts
                       (<[oracle_requestId env2 := mkContext b2 hash2 false]>
                          (decryptionContexts s1)) s1))
      by (subst s2; unfold storage_after; now rewrite Ht).
    split; [now rewrite Es2 |]. rewrite Es2. simpl. split.
    + apply lookup_insert_eq.
    + rewrite lookup_insert_ne by exact Hid. subst s1. simpl.
      apply lookup_insert_eq.
Qed.

End Cooldowns.

Lemma resubmission_after_cooldown_witness :
  transact mock Scenario.contract_address (Scenario.at_time Scenario.provider 1300)
    (submit Hedge 1 Scenario.asset2 503) Scenario.two_submitted =
    Success Scenario.submitted
      [Event.HedgeSubmitted 1 Scenario.provider Scenario.asset2 503] /\
  block_timestamp (Scenario.at_time Scenario.provider 1300) +
    cooldownSeconds Scenario.two_submitted
    <= block_timestamp (Scenario.at_time Scenario.provider 1360) /\
  stored_handle Hedge
    (storage_after mock Scenario.contract_address
       (Scenario.at_time Scenario.provider 1360)
       (submit Hedge 1 Scenario.asset2 999) Scenario.submitted) 1 Scenario.asset2 = 999.
Proof.
  assert (H1 : transact mock Scenario.contract_address
                 (Scenario.at_time Scenario.provider 1300)
                 (submit Hedge 1 Scenario.asset2 503) Scenario.two_submitted =
               Success Scenario.submitted
                 [Event.HedgeSubmitted 1 Scenario.provider Scenario.asset2 503])
    by (vm_compute; reflexivity).
  assert (H2 : block_timestamp (Scenario.at_time Scenario.provider 1300) +
               cooldownSeconds Scenario.two_submitted
               <= block_timestamp (Scenario.at_time Scenario.provider 1360))
    by (vm_compute; discriminate).
  split; [exact H1 |]. split; [exact H2 |].
  refine (proj1 (proj2 (resubmission_after_cooldown mock Scenario.contract_address
                          (Scenario.at_time Scenario.provider 1300)
                          (Scenario.at_time Scenario.provider 1360)
                          Hedge Hedge 1 Scenario.asset2 Scenario.asset2 503 999
                          Scenario.two_submitted Scenario.submitted _
                          H1 eq_refl H2 _ _))).
  - vm_compute; reflexivity.
  - vm_compute; reflexivity.
Defined.

Lemma cooldown_overflow_locks_out_witness :
  paused Scenario.huge_cooldown = false /\
  read_bool (isProvider Scenario.huge_cooldown) Scenario.provider = true /\
  uint256_limit <=
    read_uint (lastSubmissionTime Scenario.huge_cooldown) Scenario.provider +
    cooldownSeconds Scenario.huge_cooldown /\
  transact mock Scenario.contract_address (Scenario.at_time Scenario.provider 999999)
    (submit Amount 1 Scenario.asset1 7) Scenario.huge_cooldown = Reverted (Panic 0x11).
Proof.
  assert (H1 : paused Scenario.huge_cooldown = false) by (vm_compute; reflexivity).
  assert (H2 : read_bool (isProvider Scenario.huge_cooldown)
                 (msg_sender (Scenario.at_time Scenario.provider 999999)) = true)
    by (vm_compute; reflexivity).
  assert (H3 : uint256_limit <=
               read_uint (lastSubmissionTime Scenario.huge_cooldown)
                 (msg_sender (Scenario.at_time Scenario.provider 999999)) +
               cooldownSeconds Scenario.huge_cooldown)
    by (vm_compute; discriminate).
  split; [exact H1 |]. split; [exact H2 |]. split; [exact H3 |].
  exact (proj1 (cooldown_overflow_locks_out mock Scenario.contract_address
                  (Scenario.at_time Scenario.provider 999999)
                  Scenario.huge_cooldown H1) H2 H3 Amount 1 Scenario.asset1 7).
Defined.

Lemma request_cooldown_and_second_request_witness :
  transact mock Scenario.contract_address (Scenario.at_time Scenario.deployer 1500)
    (RequestBatchDecryption 1) Scenario.closed =
    Success Scenario.requested
      [Event.DecryptionRequested 77 1
         (mock_hash (abi_encode [501; 0; 502; 503] Scenario.contract_address))] /\
  transact mock Scenario.contract_address (mkEnv Scenario.deployer 1530 78)
    (RequestBatchDecryption 1) Scenario.requested = Reverted CooldownActive.
Proof.
  assert (H1 : transact mock Scenario.contract_address
                 (Scenario.at_time Scenario.deployer 1500)
                 (RequestBatchDecryption 1) Scenario.closed =
               Success Scenario.requested
                 [Event.DecryptionRequested 77 1
                    (mock_hash (abi_encode [501; 0; 502; 503]
                                  Scenario.contract_address))])
    by (vm_compute; reflexivity).
  split; [exact H1 |].
  refine (proj1 (request_cooldown_and_second_request mock Scenario.contract_address
                   (Scenario.at_time Scenario.deployer 1500)
                   (mkEnv Scenario.deployer 1530 78) 1 1
                   Scenario.closed Scenario.requested _ H1 eq_refl _) _).
  - vm_compute; reflexivity.
  - vm_compute; reflexivity.
Defined.

(** ** Words and the encoding that is hashed *)

Lemma byte_of_N_of_byte (d : N) (b : byte) :
  byte_of_N (d * 256 + Byte.to_N b) = b.
Proof.
  unfold byte_of_N.
  pose proof (Byte.to_N_bounded b) as Hb.
  rewrite N.add_comm, N.Div0.mod_add, N.mod_small by lia.
  now rewrite Byte.of_to_N.
Qed.

Lemma be_decode_bound (bs : list byte) :
  be_decode bs < 256 ^ N.of_nat (length bs).
Proof.
  induction bs as [| b bs IH] using rev_ind; [reflexivity |].
  rewrite be_decode_snoc, length_app, Nat.add_1_r, Nat2N.inj_succ, N.pow_succ_r'.
  pose proof (Byte.to_N_bounded b). lia.
Qed.

Lemma be_encode_decode (bs : list byte) :
  be_encode (length bs) (be_decode bs) = bs.
Proof.
  induction bs as [| b bs IH] using rev_ind; [reflexivity |].
  rewrite be_decode_snoc, length_app, Nat.add_1_r. cbn [be_encode].
  rewrite byte_of_N_of_byte. f_equal.
  pose proof (Byte.to_N_bounded b).
  rewrite N.div_add_l, N.div_small, N.add_0_r by lia. exact IH.
Qed.

(** X17. Big-endian words round-trip in both directions: encoding what a byte
    string decodes to, at its own length, gives the string back; decoding an
    [n]-byte encoding gives the number back modulo [256^n]; and on [uint256]
    values [encode_uint256] is injective and always 32 bytes long. *)
Theorem big_endian_round_trip :
  (forall bs, be_encode (length bs) (be_decode bs) = bs /\
              be_decode bs < 256 ^ N.of_nat (length bs)) /\
  (forall n x, be_decode (be_encode n x) = x mod 256 ^ N.of_nat n /\
               length (be_encode n x) = n) /\
  (forall x y, x < uint256_limit -> y < uint256_limit ->
               encode_uint256 x = encode_uint256 y -> x = y).
Proof.
  split; [| split].
  - intros bs. split; [apply be_encode_decode | apply be_decode_bound].
  - intros n x. split; [apply be_decode_encode_mod | apply be_encode_length].
  - intros x y Hx Hy E.
    rewrite <- (be_decode_encode_uint256 x Hx), <- (be_decode_encode_uint256 y Hy).
    now rewrite E.
Qed.

Lemma abi_encode_length (cts : list bytes32) (addr : address) :
  length (abi_encode cts addr) = (96 + 32 * length cts)%nat.
Proof.
  unfold abi_encode. rewrite !length_app, !encode_uint256_length.
  assert (H : length (concat (map encode_uint256 cts)) = (32 * length cts)%nat).
  { induction cts as [| c cts IH]; [reflexivity |].
    cbn [map concat length]. rewrite length_app, encode_uint256_length, IH. lia. }
  rewrite H. lia.
Qed.

Lemma concat_encode_injective (cts cts' : list bytes32) :
  Forall (fun x => x < uint256_limit) cts ->
  Forall (fun x => x < uint256_limit) cts' ->
  length cts = length cts' ->
  concat (map encode_uint256 cts) = concat (map encode_uint256 cts') ->
  cts = cts'.
Proof.
  intros Hb. revert cts'. induction Hb as [| c cts Hc _ IH]; intros cts' Hb' Hlen E.
  - destruct cts'; [reflexivity | discriminate Hlen].
  - destruct Hb' as [| c' cts' Hc' Hb']; [discriminate Hlen |].
    cbn [map concat] in E.
    apply app_inj_1 in E as [E1 E2];
      [| now rewrite !encode_uint256_length].
    f_equal.
    + rewrite <- (be_decode_encode_uint256 c Hc), <- (be_decode_encode_uint256 c' Hc').
      now rewrite E1.
    + apply IH; [exact Hb' | now injection Hlen | exact E2].
Qed.

(** X18. The bytes that [_hashCiphertexts] hashes determine the handle list
    and the address: [abi.encode(cts, address)] is [96 + 32 * n] bytes long
    for [n] handles, and two encodings are equal only if the lists are equal,
    handle by handle and in the same order, and the addresses are equal. Any
    two different snapshots, or the same snapshot at two contracts, reach the
    hash as different inputs. *)
Theorem abi_encode_is_injective (cts cts' : list bytes32) (addr addr' : address) :
  Forall (fun x => x < uint256_limit) cts ->
  Forall (fun x => x < uint256_limit) cts' ->
  addr < uint256_limit -> addr' < uint256_limit ->
  length (abi_encode cts addr) = (96 + 32 * length cts)%nat /\
  (abi_encode cts addr = abi_encode cts' addr' -> cts = cts' /\ addr = addr').
Proof.
  intros Hb Hb' Ha Ha'. split; [apply abi_encode_length |].
  intros E.
  assert (Hlen : length cts = length cts').
  { apply (f_equal (@length byte)) in E. rewrite !abi_encode_length in E. lia. }
  unfold abi_encode in E.
  apply app_inj_1 in E as [_ E]; [| now rewrite !encode_uint256_length].
  apply app_inj_1 in E as [Eaddr E]; [| now rewrite !encode_uint256_length].
  apply app_inj_1 in E as [_ E]; [| now rewrite !encode_uint256_length].
  split.
  - now apply concat_encode_injective.
  - rewrite <- (be_decode_encode_uint256 addr Ha),
            <- (be_decode_encode_uint256 addr' Ha').
    now rewrite Eaddr.
Qed.

Lemma abi_encode_is_injective_witness :
  Forall (fun x => x < uint256_limit) [501; 0; 502; 503] /\
  Forall (fun x => x < uint256_limit) [501; 502; 0; 503] /\
  abi_encode [501; 0; 502; 503] Scenario.contract_address <>
    abi_encode [501; 502; 0; 503] Scenario.contract_address.
Proof.
  assert (H1 : Forall (fun x => x < uint256_limit) [501; 0; 502; 503])
    by (repeat constructor).
  assert (H2 : Forall (fun x => x < uint256_limit) [501; 502; 0; 503])
    by (repeat constructor).
  split; [exact H1 |]. split; [exact H2 |].
  intros E.
  destruct (proj2 (abi_encode_is_injective [501; 0; 502; 503] [501; 502; 0; 503]
                     Scenario.contract_address Scenario.contract_address
                     H1 H2 eq_refl eq_refl) E) as [Hl _].
  discriminate Hl.
Defined.

(** ** Logs, deployment, hand-over, and callbacks side by side *)

Section Composition.

Variable FHE : Capability.
Variable this : address.


(** X20. Right after deployment the deployer is the owner, batch 1 is the
    current batch and accepts submissions, the cooldown is 60 seconds, the
    contract is not paused, and the constructor has logged
    [OwnershipTransferred] from the zero address and [BatchOpened(1)]. Nobody
    is a provider yet, the deployer included: every submission reverts with
    [NotProvider] until the owner adds a provider, and every decryption
    request reverts. *)
Theorem deployment (env : Env) :
  let s := deployed env in
  constructor env zero_state =
    inr (tt, s, [Event.OwnershipTransferred 0 (msg_sender env); Event.BatchOpened 1]) /\
  owner s = msg_sender env /\
  currentBatchId s = 1 /\
  cooldownSeconds s = 60 /\
  paused s = false /\
  accepts_submissions s 1 = true /\
  (forall env' k b a h,
     transact FHE this env' (submit k b a h) s = Reverted NotProvider) /\
  (forall env' b, exists e,
     transact FHE this env' (RequestBatchDecryption b) s = Reverted e) /\
  (forall env' p k a h,
     msg_sender env' = msg_sender env ->
     isInitialized FHE h = true ->
     forall envp, msg_sender envp = p ->
     60 <= block_timestamp envp -> block_timestamp envp < uint256_limit ->
     exists s' ev,
       transact FHE this envp (submit k 1 a h)
         (storage_after FHE this env' (AddProvider p) s) = Success s' [ev] /\
       stored_handle k s' 1 a = h).
Proof.
  intros s. subst s. repeat apply conj; try reflexivity.
  - intros env' k b a h. now rewrite transact_submit.
  - intros env' b. rewrite transact_requestBatchDecryption. unfold request_guard.
    change (read_bool (isBatchClosed (deployed env)) b) with false. cbn [negb].
    case_receipt; eexists; reflexivity.
  - intros env' p k a h Ho Hinit envp Hp Hlate Hfit.
    assert (Hs1 : storage_after FHE this env' (AddProvider p) (deployed env) =
                  set_isProvider (<[p := true]> ∅) (deployed env)).
    { unfold storage_after. rewrite transact_addProvider.
      change (owner (deployed env)) with (msg_sender env).
      now rewrite Ho, N.eqb_refl. }
    rewrite Hs1, transact_submit. unfold submit_guard. rewrite Hp. simpl.
    rewrite read_bool_insert. destruct (decide _); [| congruence]. cbn [negb].
    change (read_uint ∅ p) with 0. change (0 + 60) with 60.
    change (60 <? uint256_limit) with true.
    destruct (N.ltb_spec (block_timestamp envp) 60); [lia |].
    change (read_bool ∅ 1) with false. rewrite Hinit. cbn [negb].
    eexists; eexists. split; [reflexivity |].
    destruct k; simpl; rewrite read_handle_insert; destruct (decide _); congruence.
Qed.

Lemma set_owner_back (s : State) (a : address) :
  set_owner (owner s) (set_owner a s) = s.
Proof. now destruct s. Qed.

(** X21. Handing ownership over takes effect at once and can be undone: after
    [transferOwnership(newOwner)] by the owner, with [newOwner] another
    address, every [onlyOwner] function reverts with [NotOwner] for the
    former owner, the new owner passes the check (it can, for one, pause and
    unpause), and when the new owner transfers ownership back, storage is
    exactly what it was before the first transfer. *)
Theorem ownership_hand_over (env : Env) (s : State) (newOwner : address) :
  msg_sender env = owner s ->
  newOwner <> owner s ->
  let s1 := storage_after FHE this env (TransferOwnership newOwner) s in
  (forall env' c,
     msg_sender env' = owner s -> owner_only c = true ->
     transact FHE this env' c s1 = Reverted NotOwner) /\
  (forall env' b,
     msg_sender env' = newOwner ->
     transact FHE this env' (SetPaused b) s1 =
       Success (set_paused b s1) [Event.PauseToggled b]) /\
  (forall env',
     msg_sender env' = newOwner ->
     transact FHE this env' (TransferOwnership (owner s)) s1 =
       Success s [Event.OwnershipTransferred newOwner (owner s)]).
Proof.
  intros Ho Hne s1.
  assert (E : s1 = set_owner newOwner s).
  { subst s1. unfold storage_after.
    now rewrite transact_transferOwnership, Ho, N.eqb_refl. }
  rewrite E. repeat apply conj.
  - intros env' c Hold Hc. apply owner_only_reverts; [exact Hc |].
    simpl. congruence.
  - intros env' b Hnew. rewrite transact_setPaused. simpl.
    now rewrite Hnew, N.eqb_refl.
  - intros env' Hnew. rewrite transact_transferOwnership.
    change (owner (set_owner newOwner s)) with newOwner.
    now rewrite Hnew, N.eqb_refl, set_owner_back.
Qed.

Lemma callback_after_other (env : Env) (r1 r2 : uint256)
    (cleartexts proof : list byte) (s : State) :
  r1 <> r2 ->
  transact FHE this env (MyCallback r2 cleartexts proof) (finalized r1 s) =
  match transact FHE this env (MyCallback r2 cleartexts proof) s with
  | Success _ logs => Success (finalized r2 (finalized r1 s)) logs
  | Reverted e => Reverted e
  end.
Proof.
  intros Hne. rewrite !transact_myCallback. cbv zeta. unfold recomputed_hash.
  assert (Hc : read_context (decryptionContexts (finalized r1 s)) r2 =
               read_context (decryptionContexts s) r2).
  { unfold finalized. simpl. rewrite read_context_insert.
    destruct (decide _); [contradiction | reflexivity]. }
  rewrite Hc.
  rewrite (collect_cts_reads_submissions FHE (finalized r1 s) s _ assets
             eq_refl eq_refl).
  case_receipt; reflexivity.
Qed.

Lemma finalized_commute (r1 r2 : uint256) (s : State) :
  r1 <> r2 -> finalized r2 (finalized r1 s) = finalized r1 (finalized r2 s).
Proof.
  intros Hne. unfold finalized, set_decryptionContexts. simpl.
  rewrite !read_context_insert.
  destruct (decide (r1 = r2)); [contradiction |].
  destruct (decide (r2 = r1)); [congruence |].
  f_equal. now apply insert_insert_ne.
Qed.

(** X22. Callbacks for different request ids do not interfere, whatever
    order they arrive in: each has the same outcome and logs the same event
    whether or not the other ran first, and both orders end in the same
    storage. *)
Theorem callbacks_commute (env1 env2 : Env) (r1 r2 : uint256)
    (ct1 ct2 p1 p2 : list byte) (s : State) :
  r1 <> r2 ->
  let c1 := MyCallback r1 ct1 p1 in
  let c2 := MyCallback r2 ct2 p2 in
  storage_after FHE this env2 c2 (storage_after FHE this env1 c1 s) =
    storage_after FHE this env1 c1 (storage_after FHE this env2 c2 s) /\
  logs_of FHE this env2 c2 (storage_after FHE this env1 c1 s) =
    logs_of FHE this env2 c2 s /\
  logs_of FHE this env1 c1 (storage_after FHE this env2 c2 s) =
    logs_of FHE this env1 c1 s.
Proof.
  intros Hne c1 c2. subst c1 c2. unfold storage_after, logs_of.
  destruct (myCallback_all_or_nothing FHE this env1 r1 ct1 p1 s)
    as [[e1 H1] | (x1 & y1 & H1)];
  destruct (myCallback_all_or_nothing FHE this env2 r2 ct2 p2 s)
    as [[e2 H2] | (x2 & y2 & H2)];
  rewrite ?H1, ?H2;
  rewrite ?(callback_after_other env2 r1 r2 ct2 p2 s Hne);
  rewrite ?(callback_after_other env1 r2 r1 ct1 p1 s (not_eq_sym Hne));
  rewrite ?H1, ?H2; repeat split; try reflexivity.
  apply finalized_commute. exact Hne.
Qed.

End Composition.

Lemma ownership_hand_over_witness :
  msg_sender (Scenario.at_time Scenario.deployer 1010) = owner Scenario.fresh /\
  Scenario.stranger <> owner Scenario.fresh /\
  transact mock Scenario.contract_address (Scenario.at_time Scenario.stranger 1020)
    (TransferOwnership (owner Scenario.fresh))
    (storage_after mock Scenario.contract_address
       (Scenario.at_time Scenario.deployer 1010)
       (TransferOwnership Scenario.stranger) Scenario.fresh) =
    Success Scenario.fresh
      [Event.OwnershipTransferred Scenario.stranger (owner Scenario.fresh)].
Proof.
  assert (H1 : msg_sender (Scenario.at_time Scenario.deployer 1010) =
               owner Scenario.fresh) by (vm_compute; reflexivity).
  assert (H2 : Scenario.stranger <> owner Scenario.fresh)
    by (vm_compute; discriminate).
  split; [exact H1 |]. split; [exact H2 |].
  exact (proj2 (proj2 (ownership_hand_over mock Scenario.contract_address
                         (Scenario.at_time Scenario.deployer 1010)
                         Scenario.fresh Scenario.stranger H1 H2))
           (Scenario.at_time Scenario.stranger 1020) eq_refl).
Defined.

Lemma callbacks_commute_witness :
  77 <> 78 /\
  storage_after mock Scenario.contract_address (Scenario.at_time Scenario.stranger 9100)
    (MyCallback 78 Scenario.cleartexts Scenario.valid_proof)
    (storage_after mock Scenario.contract_address
       (Scenario.at_time Scenario.stranger 9000)
       (MyCallback 77 Scenario.cleartexts Scenario.valid_proof) Scenario.two_pending) =
  storage_after mock Scenario.contract_address (Scenario.at_time Scenario.stranger 9000)
    (MyCallback 77 Scenario.cleartexts Scenario.valid_proof)
    (storage_after mock Scenario.contract_address
       (Scenario.at_time Scenario.stranger 9100)
       (MyCallback 78 Scenario.cleartexts Scenario.valid_proof) Scenario.two_pending).
Proof.
  assert (H : 77 <> 78) by discriminate.
  split; [exact H |].
  exact (proj1 (callbacks_commute mock Scenario.contract_address
                  (Scenario.at_time Scenario.stranger 9000)
                  (Scenario.at_time Scenario.stranger 9100) 77 78
                  Scenario.cleartexts Scenario.cleartexts
                  Scenario.valid_proof Scenario.valid_proof
                  Scenario.two_pending H)).
Defined.

Example two_pending_both_finalize :
  processed_of
    (execute mock Scenario.contract_address
       [ (Scenario.at_time Scenario.stranger 9100,
          MyCallback 78 Scenario.cleartexts Scenario.valid_proof);
         (Scenario.at_time Scenario.stranger 9000,
          MyCallback 77 Scenario.cleartexts Scenario.valid_proof) ]
       Scenario.two_pending) 77 = true /\
  processed_of
    (execute mock Scenario.contract_address
       [ (Scenario.at_time Scenario.stranger 9100,
          MyCallback 78 Scenario.cleartexts Scenario.valid_proof);
         (Scenario.at_time Scenario.stranger 9000,
          MyCallback 77 Scenario.cleartexts Scenario.valid_proof) ]
       Scenario.two_pending) 78 = true.
Proof. split; vm_compute; reflexivity. Qed.

(** ** What the pause holds still, and whose cooldown a call consumes *)

Section PauseAndCooldown.

Variable FHE : Capability.
Variable this : address.

(** X23. While the contract is paused the ledger stands still: no call, by
    anyone, changes the batch counter, a closed flag, an amount or hedge
    handle or a cooldown timestamp, and no decryption context is created;
    the only writes left are the owner's settings and a callback marking an
    existing request processed. *)
Theorem paused_ledger_stands_still (env : Env) (c : Call) (s : State) :
  paused s = true ->
  let s' := storage_after FHE this env c s in
  currentBatchId s' = currentBatchId s /\
  isBatchClosed s' = isBatchClosed s /\
  encryptedAssetAmounts s' = encryptedAssetAmounts s /\
  encryptedHedgeAmounts s' = encryptedHedgeAmounts s /\
  lastSubmissionTime s' = lastSubmissionTime s /\
  lastDecryptionRequestTime s' = lastDecryptionRequestTime s /\
  (forall requestId,
     batchId (read_context (decryptionContexts s') requestId) =
       batchId (read_context (decryptionContexts s) requestId) /\
     stateHash (read_context (decryptionContexts s') requestId) =
       stateHash (read_context (decryptionContexts s) requestId)).
Proof.
  intros Hp s'. subst s'. unfold storage_after.
  destruct c; rewrite_transact; unfold submit_guard, request_guard;
    rewrite ?Hp; cbv zeta; case_receipt; simpl; repeat apply conj;
    try reflexivity; try (intros; split; reflexivity).
  intros rid. rewrite read_context_insert.
  destruct (decide _) as [<- |]; split; reflexivity.
Qed.

(** X24. A call consumes nobody's cooldown but its sender's, and only when it
    succeeds: if a transaction changes the submission timestamp of an
    address, that address sent it, the transaction is a submission that went
    through, and the new timestamp is the block time; the same holds for the
    decryption-request timestamp and a request. *)
Theorem cooldown_is_the_senders (env : Env) (c : Call) (s : State)
    (who : address) :
  let s' := storage_after FHE this env c s in
  (read_uint (lastSubmissionTime s') who <> read_uint (lastSubmissionTime s) who ->
     who = msg_sender env /\
     read_uint (lastSubmissionTime s') who = block_timestamp env /\
     exists k b a h logs,
       c = submit k b a h /\ transact FHE this env c s = Success s' logs) /\
  (read_uint (lastDecryptionRequestTime s') who <>
     read_uint (lastDecryptionRequestTime s) who ->
     who = msg_sender env /\
     read_uint (lastDecryptionRequestTime s') who = block_timestamp env /\
     exists b logs,
       c = RequestBatchDecryption b /\ transact FHE this env c s = Success s' logs).
Proof.
  intros s'. subst s'. unfold storage_after.
  destruct c;
    match goal with
    | |- context [transact _ _ _ ?call _] =>
        destruct (transact FHE this env call s) as [s1 logs |] eqn:Ht
    end;
    (split; intros Hne; try (exfalso; apply Hne; reflexivity));
    generalize Ht; rewrite_transact; cbv zeta; case_receipt; try discriminate;
    intros Heq; injection Heq as <- <-; simpl in Hne;
    try (exfalso; apply Hne; reflexivity);
    rewrite read_uint_insert in Hne; simpl; rewrite read_uint_insert;
    (destruct (decide _) as [<- |]; [| exfalso; apply Hne; reflexivity]);
    (split; [reflexivity |]); (split; [reflexivity |]).
  - exists Amount. do 4 eexists. split; reflexivity.
  - exists Hedge. do 4 eexists. split; reflexivity.
  - do 2 eexists. split; reflexivity.
Qed.

End PauseAndCooldown.

Lemma paused_ledger_stands_still_witness :
  paused Scenario.paused_pending = true /\
  encryptedAssetAmounts
    (storage_after mock Scenario.contract_address
       (Scenario.at_time Scenario.stranger 9000)
       (MyCallback 77 Scenario.cleartexts Scenario.valid_proof)
       Scenario.paused_pending) =
  encryptedAssetAmounts Scenario.paused_pending.
Proof.
  assert (H : paused Scenario.paused_pending = true) by (vm_compute; reflexivity).
  split; [exact H |].
  exact (proj1 (proj2 (proj2 (paused_ledger_stands_still mock
                                Scenario.contract_address
                                (Scenario.at_time Scenario.stranger 9000)
                                (MyCallback 77 Scenario.cleartexts Scenario.valid_proof)
                                Scenario.paused_pending H)))).
Defined.
